(** * Aggregate energy-service demand: calibration and projection

    A shallow embedding of the two demand-sector translation units
    [building_dmd_sector.cpp] and [tran_sector.cpp]: the aggregate demand
    functions [BuildingDemandSector::aggdemand] and [TranSector::aggdemand],
    the scaler fallback in [BuildingDemandSector::initCalc], and the
    calibration reconciliation [TranSector::checkSectorCalData].

    The C++ code computes on [double].  The embedding is written once over
    an interface of the operations the code uses ([DoubleOps]).  The
    arithmetic of the code is the IEEE binary64 instance (the kernel's
    primitive floats, with the C library's [pow] as a parameter): every
    statement about computed values is made either for all instances or
    for binary64.  The real numbers are a second instance, an
    idealisation without rounding, overflow or NaN; it serves only to
    show that a statement about control flow does not depend on the
    format. *)

From Stdlib Require Import ZArith Reals Lra Floats.
From stdpp Require Import base option list strings.

Local Open Scope string_scope.

(** ** The arithmetic of [double] *)

(** The operations on [double] that the two translation units use.  The
    comparisons are the two the code writes ([<] and [>=]); on IEEE values
    neither holds when an operand is NaN, so they are kept apart and only
    the implication both instances satisfy is required. *)
Class DoubleOps (D : Type) := {
  of_int : Z -> D;
  dadd : D -> D -> D;
  dsub : D -> D -> D;
  dmul : D -> D -> D;
  ddiv : D -> D -> D;
  dneg : D -> D;
  dpow : D -> D -> D;
  dlt : D -> D -> bool;
  dge : D -> D -> bool;
  dlt_not_ge : forall x y, dlt x y = true -> dge x y = false
}.

Declare Scope double_scope.
Delimit Scope double_scope with D.
Notation "x + y" := (dadd x y) : double_scope.
Notation "x - y" := (dsub x y) : double_scope.
Notation "x * y" := (dmul x y) : double_scope.
Notation "x / y" := (ddiv x y) : double_scope.
Notation "- x" := (dneg x) : double_scope.
Notation "x <? y" := (dlt x y) : double_scope.
Notation "x >=? y" := (dge x y) (at level 70) : double_scope.
Notation "'d0'" := (of_int 0%Z) : double_scope.
Notation "'d1'" := (of_int 1%Z) : double_scope.

(** ** Collaborators that live outside the two translation units *)

(** [ILogger]: the levels the code sets and the pieces it streams into a
    message.  A message is recorded when the code streams [endl]. *)
Inductive WarningLevel := DEBUG | NOTICE | WARNING | ERROR | SEVERE.

Inductive Piece (D : Type) :=
  | Text (s : string)
  | IntVal (n : nat)
  | DoubleVal (x : D).
Arguments Text {D} s.
Arguments IntVal {D} n.
Arguments DoubleVal {D} x.

Record LogEntry (D : Type) := mkLogEntry {
  entryLevel : WarningLevel;
  entryText : list (Piece D)
}.
Arguments mkLogEntry {D} _ _.
Arguments entryLevel {D} _.
Arguments entryText {D} _.

(** The logger named [main_log]: the entries written so far, oldest first. *)
Definition MainLog (D : Type) := list (LogEntry D).

(** [GDP]: the two accessors [aggdemand] calls, per period. *)
Record GDP (D : Type) := mkGDP {
  getBestScaledGDPperCap : nat -> D;
  getApproxScaledGDP : nat -> D
}.
Arguments mkGDP {D} _ _.
Arguments getBestScaledGDPperCap {D} _ _.
Arguments getApproxScaledGDP {D} _ _.

(** [Modeltime]: [gettimestep] returns an [int]. *)
Record Modeltime := mkModeltime {
  gettimestep : nat -> Z
}.

(** The two [Sector] queries [checkSectorCalData] makes; they are answered
    from the subsectors, which are not part of the sector's own fields. *)
Record CalData (D : Type) := mkCalData {
  inputsAllFixed : nat -> bool;
  getCalOutput : nat -> D
}.
Arguments mkCalData {D} _ _.
Arguments inputsAllFixed {D} _ _.
Arguments getCalOutput {D} _ _.

(** ** Period-indexed vectors *)

(** A period is an index into the vectors of a sector ([nat]).  [v[i]] on
    a [std::vector<double>]: reading is stdpp's lookup, and an index
    outside the vector (undefined behaviour in C++) is [None].  Writing
    inside the vector replaces the element; outside, [None]. *)
Definition vec_write {A : Type} (v : list A) (i : nat) (x : A) : option (list A) :=
  if decide (i < length v) then Some (<[i:=x]> v) else None.

(** ** BuildingDemandSector *)

Module Building.
Section WithDouble.
Context {D : Type} `{!DoubleOps D}.
Local Open Scope double_scope.

(** The members the translation unit reads or writes.  [baseScaler] and
    [baseService] are the class's own; the others are inherited. *)
Record BuildingDemandSector := mkSector {
  name : string;
  regionName : string;
  perCapitaBased : bool;
  pElasticity : list D;
  iElasticity : list D;
  sectorprice : list D;
  servicePreTechChange : list D;
  service : list D;
  baseScaler : D;
  baseService : list D
}.

Definition set_baseScaler (x : D) (s : BuildingDemandSector) :=
  mkSector (name s) (regionName s) (perCapitaBased s) (pElasticity s)
    (iElasticity s) (sectorprice s) (servicePreTechChange s) (service s)
    x (baseService s).

Definition set_servicePreTechChange (v : list D) (s : BuildingDemandSector) :=
  mkSector (name s) (regionName s) (perCapitaBased s) (pElasticity s)
    (iElasticity s) (sectorprice s) v (service s)
    (baseScaler s) (baseService s).

Definition set_service (v : list D) (s : BuildingDemandSector) :=
  mkSector (name s) (regionName s) (perCapitaBased s) (pElasticity s)
    (iElasticity s) (sectorprice s) (servicePreTechChange s) v
    (baseScaler s) (baseService s).

(** The constructor: [baseScaler = -1] and [baseService] sized [maxper]
    and filled with [-1]. *)
Definition unsetScaler : D := of_int (-1).

Definition initialBaseService (maxper : nat) : list D :=
  replicate maxper (of_int (-1)).

(** Every period-indexed vector of the sector holds [maxper] entries, as
    the constructors size them. *)
Definition sized (maxper : nat) (s : BuildingDemandSector) : Prop :=
  length (pElasticity s) = maxper ∧ length (iElasticity s) = maxper
  ∧ length (sectorprice s) = maxper
  ∧ length (servicePreTechChange s) = maxper ∧ length (service s) = maxper
  ∧ length (baseService s) = maxper.

(** [initCalc]: the part on the sector's own fields.  The two
    [mSectorInfo->addItem] calls and [Sector::initCalc] hand over to the
    market info and the subsectors. *)
Definition initCalc (period : nat) (s : BuildingDemandSector) (mainLog : MainLog D)
  : BuildingDemandSector * MainLog D :=
  if baseScaler s <? d0 then
    (set_baseScaler d1 s,
     (mainLog ++ [mkLogEntry WARNING
       [Text "WARNING: Building sector base demand service not set in period ";
        IntVal period; Text " sector "; Text (name s);
        Text " region "; Text (regionName s);
        Text ".  baseScaler being set to 1."]])%list)
  else (s, mainLog).

(** The price ratio of [aggdemand]: the previous period's price is used
    from period 2 on. *)
Definition priceRatioAt (period : nat) (s : BuildingDemandSector) : option D :=
  if decide (1 < period) then
    cur ← sectorprice s !! period;
    prev ← sectorprice s !! (period - 1)%nat;
    Some (cur / prev)
  else Some d1.

(** [aggdemand], up to the hand-over of [service[period]] to
    [setServiceDemand], [setoutput] and [sumOutput]. *)
Definition aggdemand (gdp : GDP D) (period : nat) (s : BuildingDemandSector)
  : option BuildingDemandSector :=
  let scaledGdpPerCapita := getBestScaledGDPperCap gdp period in
  let scaledTotalGDP := getApproxScaledGDP gdp period in
  priceRatio ← priceRatioAt period s;
  base ← baseService s !! period;
  pE ← pElasticity s !! period;
  iE ← iElasticity s !! period;
  let '(s1, ser_dmd) :=
    if base >=? d0 then
      let s0 := set_baseScaler (base / dpow priceRatio pE) s in
      let s1 :=
        if perCapitaBased s0 then
          set_baseScaler
            (baseScaler s0 / (dpow scaledGdpPerCapita iE * scaledTotalGDP / scaledGdpPerCapita)) s0
        else
          set_baseScaler (baseScaler s0 / dpow scaledTotalGDP iE) s0 in
      (s1, base)
    else
      if perCapitaBased s then
        let ser_dmd := baseScaler s * dpow priceRatio pE * dpow scaledGdpPerCapita iE in
        (s, ser_dmd * (scaledTotalGDP / scaledGdpPerCapita))
      else
        (s, baseScaler s * dpow priceRatio pE * dpow scaledTotalGDP iE) in
  pre ← vec_write (servicePreTechChange s1) period ser_dmd;
  let s2 := set_servicePreTechChange pre s1 in
  svc ← vec_write (service s2) period ser_dmd;
  Some (set_service svc s2).

End WithDouble.
Arguments BuildingDemandSector D : clear implicits.
End Building.

(** ** TranSector *)

Module Tran.
Section WithDouble.
Context {D : Type} `{!DoubleOps D}.
Local Open Scope double_scope.

(** The members the translation unit reads or writes.  [percentLicensed]
    is the class's own (the share of the licensed segment, per period). *)
Record TranSector := mkSector {
  name : string;
  regionName : string;
  perCapitaBased : bool;
  pElasticity : list D;
  iElasticity : list D;
  aeei : list D;
  sectorprice : list D;
  servicePreTechChange : list D;
  service : list D;
  output : list D;
  priceRatio : D;
  priceRatioNotLic : D;
  baseScaler : D;
  baseScalerNotLic : D;
  percentLicensed : list D
}.

Definition set_servicePreTechChange (v : list D) (s : TranSector) :=
  mkSector (name s) (regionName s) (perCapitaBased s) (pElasticity s)
    (iElasticity s) (aeei s) (sectorprice s) v (service s) (output s)
    (priceRatio s) (priceRatioNotLic s) (baseScaler s) (baseScalerNotLic s)
    (percentLicensed s).

Definition set_service (v : list D) (s : TranSector) :=
  mkSector (name s) (regionName s) (perCapitaBased s) (pElasticity s)
    (iElasticity s) (aeei s) (sectorprice s) (servicePreTechChange s) v (output s)
    (priceRatio s) (priceRatioNotLic s) (baseScaler s) (baseScalerNotLic s)
    (percentLicensed s).

Definition set_output (v : list D) (s : TranSector) :=
  mkSector (name s) (regionName s) (perCapitaBased s) (pElasticity s)
    (iElasticity s) (aeei s) (sectorprice s) (servicePreTechChange s) (service s) v
    (priceRatio s) (priceRatioNotLic s) (baseScaler s) (baseScalerNotLic s)
    (percentLicensed s).

Definition set_priceRatio (x : D) (s : TranSector) :=
  mkSector (name s) (regionName s) (perCapitaBased s) (pElasticity s)
    (iElasticity s) (aeei s) (sectorprice s) (servicePreTechChange s) (service s)
    (output s) x (priceRatioNotLic s) (baseScaler s) (baseScalerNotLic s)
    (percentLicensed s).

Definition set_priceRatioNotLic (x : D) (s : TranSector) :=
  mkSector (name s) (regionName s) (perCapitaBased s) (pElasticity s)
    (iElasticity s) (aeei s) (sectorprice s) (servicePreTechChange s) (service s)
    (output s) (priceRatio s) x (baseScaler s) (baseScalerNotLic s)
    (percentLicensed s).

Definition set_baseScaler (x : D) (s : TranSector) :=
  mkSector (name s) (regionName s) (perCapitaBased s) (pElasticity s)
    (iElasticity s) (aeei s) (sectorprice s) (servicePreTechChange s) (service s)
    (output s) (priceRatio s) (priceRatioNotLic s) x (baseScalerNotLic s)
    (percentLicensed s).

Definition set_baseScalerNotLic (x : D) (s : TranSector) :=
  mkSector (name s) (regionName s) (perCapitaBased s) (pElasticity s)
    (iElasticity s) (aeei s) (sectorprice s) (servicePreTechChange s) (service s)
    (output s) (priceRatio s) (priceRatioNotLic s) (baseScaler s) x
    (percentLicensed s).

(** The constructor sizes [percentLicensed] to [maxper], filled with 1.0. *)
Definition initialPercentLicensed (maxper : nat) : list D :=
  replicate maxper d1.

(** Every period-indexed vector of the sector holds [maxper] entries. *)
Definition sized (maxper : nat) (s : TranSector) : Prop :=
  length (pElasticity s) = maxper ∧ length (iElasticity s) = maxper
  ∧ length (aeei s) = maxper ∧ length (sectorprice s) = maxper
  ∧ length (servicePreTechChange s) = maxper ∧ length (service s) = maxper
  ∧ length (output s) = maxper ∧ length (percentLicensed s) = maxper.

(** [checkSectorCalData]: when every input is fixed, the sector's demand
    of the period is replaced by the calibrated output and the ratio of
    the two is logged at level DEBUG. *)
Definition checkSectorCalData (cal : CalData D) (period : nat)
    (s : TranSector) (mainLog : MainLog D) : option (TranSector * MainLog D) :=
  if inputsAllFixed cal period then
    old ← service s !! period;
    let scaleFactor := getCalOutput cal period / old in
    svc ← vec_write (service s) period (getCalOutput cal period);
    Some (set_service svc s,
          (mainLog ++ [mkLogEntry DEBUG
            [Text "Calibrated Demand Scaled by "; DoubleVal scaleFactor;
             Text " in region "; Text (regionName s);
             Text " sector "; Text (name s)]])%list)
  else Some (s, mainLog).

(** The branch of [aggdemand] for periods 0 and 1: both scalers are fitted
    to the period's [service], which is kept. *)
Definition calibrate (gdp : GDP D) (period : nat) (s : TranSector)
  : option TranSector :=
  let scaledGdpPerCapita := getBestScaledGDPperCap gdp period in
  let gdp1 := getApproxScaledGDP gdp period in
  let s := set_priceRatio d1 s in
  let s := set_priceRatioNotLic d1 s in
  s ← (if perCapitaBased s then
         svc ← service s !! period;
         lic ← percentLicensed s !! period;
         iE ← iElasticity s !! period;
         let s := set_baseScaler
           (svc * lic * dpow scaledGdpPerCapita (- iE) / (gdp1 / scaledGdpPerCapita)) s in
         Some (set_baseScalerNotLic
           (svc * (d1 - lic) * dpow scaledGdpPerCapita (- iE) / (gdp1 / scaledGdpPerCapita)) s)
       else
         svc ← service s !! period;
         lic ← percentLicensed s !! period;
         pE ← pElasticity s !! period;
         iE ← iElasticity s !! period;
         let s := set_baseScaler
           (svc * lic * dpow (priceRatio s) (- pE) * dpow gdp1 (- iE)) s in
         Some (set_baseScalerNotLic
           (svc * (d1 - lic) * dpow (priceRatioNotLic s) (- pE) * dpow gdp1 (- iE)) s));
  ser_dmd ← service s !! period;
  pre ← vec_write (servicePreTechChange s) period ser_dmd;
  let s := set_servicePreTechChange pre s in
  cur ← service s !! period;
  svc ← vec_write (service s) period cur;
  Some (set_service svc s).

(** The branch of [aggdemand] for the later periods: demand from the
    fitted scalers, then the autonomous efficiency trend. *)
Definition project (modeltime : Modeltime) (gdp : GDP D) (period : nat)
    (s : TranSector) : option TranSector :=
  let scaledGdpPerCapita := getBestScaledGDPperCap gdp period in
  let gdp1 := getApproxScaledGDP gdp period in
  cur ← sectorprice s !! period;
  prev ← sectorprice s !! (period - 1)%nat;
  let s := set_priceRatio (cur / prev) s in
  let s := set_priceRatioNotLic (cur / prev) s in
  pE ← pElasticity s !! period;
  iE ← iElasticity s !! period;
  let ser_dmd :=
    if perCapitaBased s then
      let ser_dmd :=
        baseScaler s * dpow (priceRatio s) pE * dpow scaledGdpPerCapita iE
        + baseScalerNotLic s * dpow (priceRatioNotLic s) pE * dpow scaledGdpPerCapita iE in
      ser_dmd * (gdp1 / scaledGdpPerCapita)
    else
      baseScaler s * dpow (priceRatio s) pE * dpow gdp1 iE in
  pre ← vec_write (servicePreTechChange s) period ser_dmd;
  let s := set_servicePreTechChange pre s in
  a ← aeei s !! period;
  svc ← vec_write (service s) period
          (ser_dmd / dpow (d1 + a) (of_int (gettimestep modeltime period)));
  Some (set_service svc s).

(** [aggdemand], up to the hand-over of [service[period]] to [setoutput]
    and [sumOutput]. *)
Definition aggdemand (modeltime : Modeltime) (gdp : GDP D) (period : nat)
    (s : TranSector) : option TranSector :=
  s ← (if decide (period = 0 ∨ period = 1)
       then calibrate gdp period s
       else project modeltime gdp period s);
  svc ← service s !! period;
  out ← vec_write (output s) period svc;
  Some (set_output out s).

End WithDouble.
Arguments TranSector D : clear implicits.
End Tran.

(** ** The expressions of [TranSector::aggdemand]

    The right-hand sides of the two branches, named so that statements
    about several periods can refer to them. *)

Section TranFormulas.
Context {D : Type} `{!DoubleOps D}.
Local Open Scope double_scope.

(** The scaler fitted in periods 0 and 1 to the share [share] of the
    demand [svc]. *)
Definition fittedScaler (gdp : GDP D) (p : nat) (perCapita : bool) (svc share pE iE : D) : D :=
  if perCapita then
    svc * share * dpow (getBestScaledGDPperCap gdp p) (- iE)
    / (getApproxScaledGDP gdp p / getBestScaledGDPperCap gdp p)
  else
    svc * share * dpow d1 (- pE) * dpow (getApproxScaledGDP gdp p) (- iE).

(** The demand of a later period before the efficiency trend. *)
Definition projectedDemand (gdp : GDP D) (p : nat) (perCapita : bool)
    (scaler scalerNotLic ratio pE iE : D) : D :=
  if perCapita then
    (scaler * dpow ratio pE * dpow (getBestScaledGDPperCap gdp p) iE
     + scalerNotLic * dpow ratio pE * dpow (getBestScaledGDPperCap gdp p) iE)
    * (getApproxScaledGDP gdp p / getBestScaledGDPperCap gdp p)
  else
    scaler * dpow ratio pE * dpow (getApproxScaledGDP gdp p) iE.

End TranFormulas.

(** ** The expressions of [BuildingDemandSector::aggdemand]

    The right-hand sides of its two branches, named in the same way. *)

Section BuildingFormulas.
Context {D : Type} `{!DoubleOps D}.
Local Open Scope double_scope.


(** The demand of a projection period. *)
Definition projectedDemandSimple (gdp : GDP D) (p : nat) (perCapita : bool)
    (scaler ratio pE iE : D) : D :=
  if perCapita then
    scaler * dpow ratio pE * dpow (getBestScaledGDPperCap gdp p) iE
    * (getApproxScaledGDP gdp p / getBestScaledGDPperCap gdp p)
  else scaler * dpow ratio pE * dpow (getApproxScaledGDP gdp p) iE.

End BuildingFormulas.

(** ** Sectors of the two strategies side by side *)

Section SideBySide.
Context {D : Type} `{!DoubleOps D}.


End SideBySide.

(** ** The two instances of the arithmetic *)

(** *** Exact arithmetic on the real numbers

    An idealisation, not the arithmetic of the code: there is no
    rounding, no overflow and no NaN, and [Rpower] agrees with [std::pow]
    on a positive base only.  No statement about a computed value is made
    at this instance alone. *)
Definition Rltb (x y : R) : bool := if Rlt_dec x y then true else false.
Definition Rgeb (x y : R) : bool := if Rge_dec x y then true else false.

Lemma Rltb_not_Rgeb (x y : R) : Rltb x y = true -> Rgeb x y = false.
Proof.
  unfold Rltb, Rgeb.
  destruct (Rlt_dec x y), (Rge_dec x y); intros; try reflexivity; try discriminate.
  lra.
Qed.

#[global] Instance real_double : DoubleOps R := {|
  of_int := IZR;
  dadd := Rplus;
  dsub := Rminus;
  dmul := Rmult;
  ddiv := Rdiv;
  dneg := Ropp;
  dpow := Rpower;
  dlt := Rltb;
  dge := Rgeb;
  dlt_not_ge := Rltb_not_Rgeb
|}.

(** *** IEEE binary64

    The conversion of an [int]: exact for every 32-bit value. *)
Definition float_of_int (z : Z) : float :=
  match z with
  | Z0 => PrimFloat.zero
  | Zpos _ => PrimFloat.of_uint63 (Uint63.of_Z z)
  | Zneg p => PrimFloat.opp (PrimFloat.of_uint63 (Uint63.of_Z (Zpos p)))
  end.

Lemma SFltb_not_SFleb (a b : spec_float) : SFltb a b = true -> SFleb b a = false.
Proof.
  unfold SFltb, SFleb.
  destruct a as [sa|sa| |sa ma ea], b as [sb|sb| |sb mb eb]; simpl;
    try (destruct sa); try (destruct sb); simpl; try congruence.
  all: rewrite (Z.compare_antisym ea eb);
    destruct (ea ?= eb)%Z; simpl; try congruence;
    replace (Pos.compare_cont Eq mb ma) with (CompOpp (Pos.compare_cont Eq ma mb))
      by (rewrite Pos.compare_cont_antisym; reflexivity);
    destruct (Pos.compare_cont Eq ma mb); simpl; congruence.
Qed.

Lemma float_ltb_not_geb (x y : float) :
  PrimFloat.ltb x y = true -> PrimFloat.leb y x = false.
Proof.
  rewrite ltb_spec, leb_spec. apply SFltb_not_SFleb.
Qed.

(** [std::pow] comes from the C library; the instance takes it as [pw]. *)
Definition float_double (pw : float -> float -> float) : DoubleOps float := {|
  of_int := float_of_int;
  dadd := PrimFloat.add;
  dsub := PrimFloat.sub;
  dmul := PrimFloat.mul;
  ddiv := PrimFloat.div;
  dneg := PrimFloat.opp;
  dpow := pw;
  dlt := PrimFloat.ltb;
  dge := fun x y => PrimFloat.leb y x;
  dlt_not_ge := float_ltb_not_geb
|}.

(** A stand-in for the C library's [pow] on binary64, for running the
    model on concrete inputs: [pow(x, 0) = 1] and [pow(1, y) = 1] as the
    C standard fixes them, an integer exponent by repeated multiplication,
    a half-integer exponent through the square root.  Any other exponent
    is outside the stand-in and is answered by NaN. *)
Definition pow_pos (x : float) (n : positive) : float :=
  Pos.iter_op PrimFloat.mul n x.

Definition pow_Z (x : float) (n : Z) : float :=
  match n with
  | Z0 => PrimFloat.one
  | Zpos k => pow_pos x k
  | Zneg k => PrimFloat.div PrimFloat.one (pow_pos x k)
  end.

(** Twice the exponent, when that is an integer. *)
Definition twice_as_Z (y : spec_float) : option Z :=
  match y with
  | S754_zero _ => Some 0%Z
  | S754_finite sg m e =>
      let k := if (0 <=? e + 1)%Z then Some (Z.shiftl (Zpos m) (e + 1))
               else if (Zpos m mod Z.shiftl 1 (- (e + 1)) =? 0)%Z
                    then Some (Z.shiftr (Zpos m) (- (e + 1)))
                    else None in
      if sg then Z.opp <$> k else k
  | _ => None
  end.

Definition pow_dyadic (x y : float) : float :=
  if PrimFloat.eqb y PrimFloat.zero then PrimFloat.one
  else if PrimFloat.eqb x PrimFloat.one then PrimFloat.one
  else match twice_as_Z (Prim2SF y) with
       | Some k => if Z.even k then pow_Z x (k / 2) else pow_Z (PrimFloat.sqrt x) k
       | None => PrimFloat.nan
       end.

Definition ieee : DoubleOps float := float_double pow_dyadic.

(** A value is finite when it is neither NaN nor an infinity. *)
Definition finite (x : float) : bool :=
  match Prim2SF x with
  | S754_zero _ | S754_finite _ _ _ => true
  | S754_infinity _ | S754_nan => false
  end.

(** ** Scenarios *)

Module Scenario.
Local Open Scope float_scope.

(** Four periods; GDP 100 in the base periods and 121 afterwards, 10 and
    then 12.5 per capita. *)
Definition gdp : GDP float :=
  mkGDP (fun p => if decide (p < 2)%nat then 10 else 12.5)
        (fun p => if decide (p < 2)%nat then 100 else 121).

(** A building sector observed in period 1 only, driven by aggregate
    GDP with income elasticity 1/2. *)
Definition building : Building.BuildingDemandSector float :=
  Building.mkSector "building" "USA" false
    [-0.5; -0.5; -0.5; -0.5] [0.5; 0.5; 0.5; 0.5]
    [1; 1; 1; 1.25]
    [0; 0; 0; 0] [0; 0; 0; 0]
    (-1) [-1; 100; -1; -1].

(** The same sector driven by per-capita GDP. *)
Definition building_perCapita : Building.BuildingDemandSector float :=
  Building.mkSector "building" "USA" true
    [-0.5; -0.5; -0.5; -0.5] [0.5; 0.5; 0.5; 0.5]
    [1; 1; 1; 1.25]
    [0; 0; 0; 0] [0; 0; 0; 0]
    (-1) [-1; 100; -1; -1].

(** The same sector once period 1 has been fitted. *)
Definition building_fitted : Building.BuildingDemandSector float :=
  Building.mkSector "building" "USA" false
    [-0.5; -0.5; -0.5; -0.5] [0.5; 0.5; 0.5; 0.5]
    [1; 1; 1; 1.25]
    [0; 100; 0; 0] [0; 100; 0; 0]
    10 [-1; 100; -1; -1].


(** A region whose per-capita figure is zero. *)
Definition gdp_zero_perCapita : GDP float :=
  mkGDP (fun _ => 0)
        (fun p => if decide (p < 2)%nat then 100 else 121).

(** A fitted per-capita building sector with both elasticities zero. *)
Definition building_perCapita_fitted : Building.BuildingDemandSector float :=
  Building.mkSector "building" "USA" true
    [0; 0; 0; 0] [0; 0; 0; 0]
    [1; 1; 1; 1]
    [0; 100; 0; 0] [0; 100; 0; 0]
    10 [-1; 100; -1; -1].

(** The transport sector once period 1 has been fitted: both scalers
    are 5. *)
Definition tran_fitted (trend : list float) (prices : list float)
  : Tran.TranSector float :=
  Tran.mkSector "transportation" "USA" false
    [-0.5; -0.5; -0.5; -0.5] [0.5; 0.5; 0.5; 0.5]
    trend prices
    [100; 100; 0; 0] [100; 100; 0; 0] [100; 100; 0; 0]
    1 1 5 5
    [0.5; 0.5; 0.5; 0.5].

(** Fifteen-year periods. *)
Definition modeltime : Modeltime := mkModeltime (fun _ => 15%Z).

(** A transport sector with demand 100 read in for periods 0 and 1,
    half of it in the licensed segment, and no efficiency trend. *)
Definition tran (perCapita : bool) (trend : list float) (prices : list float)
  : Tran.TranSector float :=
  Tran.mkSector "transportation" "USA" perCapita
    [-0.5; -0.5; -0.5; -0.5] [0.5; 0.5; 0.5; 0.5]
    trend prices
    [0; 0; 0; 0] [100; 100; 0; 0] [0; 0; 0; 0]
    1 1 0 0
    [0.5; 0.5; 0.5; 0.5].

(** Inputs fixed in the two base periods, with calibrated output 125. *)
Definition cal : CalData float :=
  mkCalData (fun p => bool_decide (p < 2)%nat) (fun _ => 125).

End Scenario.

(** Building sectors on binary64 holding a NaN: as the observed demand of
    period 1, and as the scaler. *)
Module ScenarioNaN.
Local Open Scope float_scope.

Definition observed : Building.BuildingDemandSector float :=
  Building.mkSector "building" "USA" false
    [-0.5; -0.5; -0.5; -0.5] [0.5; 0.5; 0.5; 0.5]
    [1; 1; 1; 1]
    [0; 0; 0; 0] [0; 0; 0; 0]
    10 [-1; PrimFloat.nan; -1; -1].

Definition scaler : Building.BuildingDemandSector float :=
  Building.mkSector "building" "USA" false
    [-0.5; -0.5; -0.5; -0.5] [0.5; 0.5; 0.5; 0.5]
    [1; 1; 1; 1]
    [0; 0; 0; 0] [0; 0; 0; 0]
    PrimFloat.nan [-1; -1; -1; -1].

End ScenarioNaN.

(** Further sectors on binary64: a late observation, two adjacent price
    ratios, a wholly licensed transport sector next to its building
    counterpart, and figures near the top of the format's range. *)
Module ScenarioBinary64.
Local Open Scope float_scope.

(** A per-capita building sector observed again in period 3, after a rise
    of the price from 1 to 1.25. *)
Definition building_observed_late : Building.BuildingDemandSector float :=
  Building.mkSector "building" "USA" true
    [-0.5; -0.5; -0.5; -0.5] [0.5; 0.5; 0.5; 0.5]
    [1; 1; 1; 1.25]
    [0; 100; 0; 0] [0; 100; 0; 0]
    10 [-1; 100; -1; 50].

(** GDP 100, 10 per capita, in every period. *)
Definition gdp_steady : GDP float := mkGDP (fun _ => 10) (fun _ => 100).






(** The double nearest to 1e200: finite and positive, with a square
    beyond the format. *)
Definition large : float := 0x1.4e718d7d7625ap+664.

Definition gdp_large : GDP float := mkGDP (fun _ => 1) (fun _ => large).

(** A building sector with elasticities -2 and 2 whose scaler was never
    fitted. *)
Definition building_unset (prices : list float) : Building.BuildingDemandSector float :=
  Building.mkSector "building" "USA" false
    [-2; -2; -2; -2] [2; 2; 2; 2]
    prices
    [0; 0; 0; 0] [0; 0; 0; 0]
    (-1) [-1; -1; -1; -1].

End ScenarioBinary64.

(** ** Signs on binary64 *)

(** The value is NaN, or its sign bit is clear: [+0], a positive number or
    [+infinity]. *)
Definition signNonneg (x : float) : bool :=
  match Prim2SF x with
  | S754_nan | S754_zero false | S754_infinity false | S754_finite false _ _ => true
  | _ => false
  end.

(** The same, or [-0]: the values [x] for which [x < 0] is false. *)
Definition notNegative (x : float) : bool :=
  match Prim2SF x with
  | S754_zero _ => true
  | _ => signNonneg x
  end.



(** ** A sector with its prices replaced *)

(** The building sector [s] with [sectorprice] set to [prices]. *)
Definition withSectorprice {D : Type} (prices : list D) (s : Building.BuildingDemandSector D)
  : Building.BuildingDemandSector D :=
  Building.mkSector (Building.name s) (Building.regionName s) (Building.perCapitaBased s)
    (Building.pElasticity s) (Building.iElasticity s) prices
    (Building.servicePreTechChange s) (Building.service s)
    (Building.baseScaler s) (Building.baseService s).

(** * Properties *)

(** The side conditions of a statement at a concrete sector: a lookup or a
    comparison that evaluates, a bound on an index, an inequality between
    real constants. *)
Ltac concrete :=
  solve [ reflexivity
        | simpl; lia
        | simpl; lra
        | vm_compute; lia
        | right; reflexivity
        | intros _; repeat split; solve [reflexivity | lra] ].

(** ** Vectors *)

Lemma vec_write_in_range {A : Type} (v : list A) (i : nat) (x : A) :
  i < length v -> vec_write v i x = Some (<[i:=x]> v).
Proof. intros Hi. unfold vec_write. case_decide; [reflexivity | lia]. Qed.

(** ** A sector as constructed *)

(** The scaler of a new building sector counts as unset, at both
    instances, and each of its periods is a projection period. *)
Lemma unsetScaler_real : dlt (Building.unsetScaler (D:=R)) (of_int 0) = true.
Proof.
  unfold Building.unsetScaler. simpl. unfold Rltb.
  destruct (Rlt_dec (-1) 0); [reflexivity | lra].
Qed.

Lemma unsetScaler_ieee :
  dlt (DoubleOps:=ieee) (Building.unsetScaler (DoubleOps0:=ieee)) (of_int (DoubleOps:=ieee) 0)
  = true.
Proof. reflexivity. Qed.

Lemma initialBaseService_lookup {D : Type} `{!DoubleOps D} (maxper p : nat) :
  p < maxper -> Building.initialBaseService maxper !! p = Some (of_int (-1)).
Proof. intros Hp. unfold Building.initialBaseService. apply lookup_replicate_2. exact Hp. Qed.

Lemma initialPercentLicensed_lookup {D : Type} `{!DoubleOps D} (maxper p : nat) :
  p < maxper -> Tran.initialPercentLicensed maxper !! p = Some (of_int 1).
Proof. intros Hp. unfold Tran.initialPercentLicensed. apply lookup_replicate_2. exact Hp. Qed.

(** ** The scenario of the simple strategy *)

(** Fitting in period 1 gives the
    scaler 10, and period 2 projects 110. *)
Example building_scenario_fit :
  Building.baseScaler <$> Building.aggdemand (DoubleOps0:=ieee) Scenario.gdp 1 Scenario.building
  = Some 10%float.
Proof. vm_compute. reflexivity. Qed.

Example building_scenario_projection :
  (s1 ← Building.aggdemand (DoubleOps0:=ieee) Scenario.gdp 1 Scenario.building;
   s2 ← Building.aggdemand (DoubleOps0:=ieee) Scenario.gdp 2 s1;
   Building.service s2 !! 2%nat) = Some 110%float.
Proof. vm_compute. reflexivity. Qed.

(** ** The simple strategy: BuildingDemandSector *)

Section BuildingFacts.
Context {D : Type} `{!DoubleOps D}.
Local Open Scope double_scope.
Import Building.

Implicit Types (s : BuildingDemandSector D) (gdp : GDP D) (p : nat).

Lemma priceRatioAt_early s p : p <= 1 -> priceRatioAt p s = Some d1.
Proof. intros Hp. unfold priceRatioAt. case_decide; [lia | reflexivity]. Qed.

Lemma priceRatioAt_later s p (cur prev : D) :
  1 < p ->
  sectorprice s !! p = Some cur ->
  sectorprice s !! (p - 1)%nat = Some prev ->
  priceRatioAt p s = Some (cur / prev).
Proof.
  intros Hp Hc Hv. unfold priceRatioAt. case_decide; [| lia].
  rewrite Hc, Hv. reflexivity.
Qed.

(** The calibration branch, with every read made explicit. *)
Lemma aggdemand_calibration gdp p s (base ratio pE iE : D) :
  priceRatioAt p s = Some ratio ->
  baseService s !! p = Some base ->
  pElasticity s !! p = Some pE ->
  iElasticity s !! p = Some iE ->
  (base >=? d0) = true ->
  p < length (servicePreTechChange s) ->
  p < length (service s) ->
  aggdemand gdp p s =
    Some (set_service (<[p:=base]> (service s))
           (set_servicePreTechChange (<[p:=base]> (servicePreTechChange s))
             (set_baseScaler
               (if perCapitaBased s then
                  base / dpow ratio pE
                  / (dpow (getBestScaledGDPperCap gdp p) iE * getApproxScaledGDP gdp p
                     / getBestScaledGDPperCap gdp p)
                else base / dpow ratio pE / dpow (getApproxScaledGDP gdp p) iE) s))).
Proof.
  intros Hr Hb HpE HiE Hge Hpre Hsvc. unfold aggdemand.
  rewrite Hr, Hb, HpE, HiE; simpl. rewrite Hge.
  destruct s as [n r pc pe ie sp pre svc bs bsv]; simpl in *.
  destruct pc; simpl; rewrite !vec_write_in_range by assumption; reflexivity.
Qed.

(** The projection branch, with every read made explicit. *)
Lemma aggdemand_projection gdp p s (base ratio pE iE : D) :
  priceRatioAt p s = Some ratio ->
  baseService s !! p = Some base ->
  pElasticity s !! p = Some pE ->
  iElasticity s !! p = Some iE ->
  (base >=? d0) = false ->
  p < length (servicePreTechChange s) ->
  p < length (service s) ->
  let ser_dmd :=
    if perCapitaBased s then
      baseScaler s * dpow ratio pE * dpow (getBestScaledGDPperCap gdp p) iE
      * (getApproxScaledGDP gdp p / getBestScaledGDPperCap gdp p)
    else baseScaler s * dpow ratio pE * dpow (getApproxScaledGDP gdp p) iE in
  aggdemand gdp p s =
    Some (set_service (<[p:=ser_dmd]> (service s))
           (set_servicePreTechChange (<[p:=ser_dmd]> (servicePreTechChange s)) s)).
Proof.
  intros Hr Hb HpE HiE Hge Hpre Hsvc. unfold aggdemand.
  rewrite Hr, Hb, HpE, HiE; simpl. rewrite Hge.
  destruct s as [n r pc pe ie sp pre svc bs bsv]; simpl in *.
  destruct pc; simpl; rewrite !vec_write_in_range by assumption; reflexivity.
Qed.

(** C1.  In a period [p] whose observed demand [baseService[p]] is not
    negative, [aggdemand] stores exactly that value in
    [servicePreTechChange[p]] and in [service[p]], and refits [baseScaler]
    to [baseService[p] / priceRatio^pElasticity[p]] divided by
    [gdpPerCapita^iElasticity[p] * gdpAggregate / gdpPerCapita] in
    per-capita mode and by [gdpAggregate^iElasticity[p]] otherwise, where
    [priceRatio] is [sectorprice[p] / sectorprice[p-1]] from period 2 on and
    1.0 before.  This holds for every arithmetic on [double]. *)
Theorem C1_building_calibration_pass_through gdp p s (base cur prev pE iE : D) :
  baseService s !! p = Some base ->
  (base >=? d0) = true ->
  (1 < p -> sectorprice s !! p = Some cur ∧ sectorprice s !! (p - 1)%nat = Some prev) ->
  pElasticity s !! p = Some pE ->
  iElasticity s !! p = Some iE ->
  p < length (servicePreTechChange s) ->
  p < length (service s) ->
  let priceRatio := if decide (1 < p) then cur / prev else d1 in
  ∃ s', aggdemand gdp p s = Some s'
    ∧ servicePreTechChange s' !! p = Some base
    ∧ service s' !! p = Some base
    ∧ baseScaler s' =
        (if perCapitaBased s then
           base / dpow priceRatio pE
           / (dpow (getBestScaledGDPperCap gdp p) iE * getApproxScaledGDP gdp p
              / getBestScaledGDPperCap gdp p)
         else base / dpow priceRatio pE / dpow (getApproxScaledGDP gdp p) iE).
Proof.
  intros Hb Hge Hprice HpE HiE Hpre Hsvc priceRatio.
  assert (Hr : priceRatioAt p s = Some priceRatio).
  { subst priceRatio. case_decide as Hp.
    - destruct (Hprice Hp) as [Hc Hv]. eapply priceRatioAt_later; eassumption.
    - apply priceRatioAt_early. lia. }
  eexists. split; [eapply aggdemand_calibration; eassumption |].
  simpl. rewrite !list_lookup_insert_eq by assumption. auto.
Qed.

(** C2.  In a period [p] with [baseService[p] < 0], [aggdemand] stores in
    both [service[p]] and [servicePreTechChange[p]] the projection
    [baseScaler * priceRatio^pElasticity[p] * gdpPerCapita^iElasticity[p]
    * (gdpAggregate / gdpPerCapita)] in per-capita mode and
    [baseScaler * priceRatio^pElasticity[p] * gdpAggregate^iElasticity[p]]
    otherwise, where [priceRatio] is [sectorprice[p] / sectorprice[p-1]]
    from period 2 on and 1.0 before; no trend factor is applied. *)
Theorem C2_building_projection gdp p s (base cur prev pE iE : D) :
  baseService s !! p = Some base ->
  (base <? d0) = true ->
  (1 < p -> sectorprice s !! p = Some cur ∧ sectorprice s !! (p - 1)%nat = Some prev) ->
  pElasticity s !! p = Some pE ->
  iElasticity s !! p = Some iE ->
  p < length (servicePreTechChange s) ->
  p < length (service s) ->
  let priceRatio := if decide (1 < p) then cur / prev else d1 in
  let result :=
    if perCapitaBased s then
      baseScaler s * dpow priceRatio pE * dpow (getBestScaledGDPperCap gdp p) iE
      * (getApproxScaledGDP gdp p / getBestScaledGDPperCap gdp p)
    else baseScaler s * dpow priceRatio pE * dpow (getApproxScaledGDP gdp p) iE in
  ∃ s', aggdemand gdp p s = Some s'
    ∧ service s' !! p = Some result
    ∧ servicePreTechChange s' !! p = Some result.
Proof.
  intros Hb Hlt Hprice HpE HiE Hpre Hsvc priceRatio result.
  assert (Hr : priceRatioAt p s = Some priceRatio).
  { subst priceRatio. case_decide as Hp.
    - destruct (Hprice Hp) as [Hc Hv]. eapply priceRatioAt_later; eassumption.
    - apply priceRatioAt_early. lia. }
  eexists. split.
  - eapply aggdemand_projection; try eassumption.
    apply dlt_not_ge. exact Hlt.
  - simpl. rewrite !list_lookup_insert_eq by assumption. auto.
Qed.

End BuildingFacts.

(** Period 3 of a sector observed there, the price having risen from 1
    to 1.25. *)
Lemma C1_witness :
  ∃ s', Building.aggdemand (DoubleOps0:=ieee) Scenario.gdp 3
          ScenarioBinary64.building_observed_late = Some s'
    ∧ Building.servicePreTechChange s' !! 3%nat = Some 50%float
    ∧ Building.service s' !! 3%nat = Some 50%float
    ∧ Building.baseScaler s'
      = (50 / pow_dyadic (1.25 / 1) (-0.5) / (pow_dyadic 12.5 0.5 * 121 / 12.5))%float.
Proof.
  apply (C1_building_calibration_pass_through (DoubleOps0:=ieee)
           Scenario.gdp 3 ScenarioBinary64.building_observed_late
           50%float 1.25%float 1%float (-0.5)%float 0.5%float);
    concrete.
Defined.

Lemma C2_witness :
  ∃ s', Building.aggdemand (DoubleOps0:=ieee) Scenario.gdp 3 Scenario.building_fitted = Some s'
    ∧ Building.service s' !! 3%nat = Some (10 * pow_dyadic (1.25 / 1) (-0.5) * pow_dyadic 121 0.5)%float
    ∧ Building.servicePreTechChange s' !! 3%nat
      = Some (10 * pow_dyadic (1.25 / 1) (-0.5) * pow_dyadic 121 0.5)%float.
Proof.
  apply (C2_building_projection (DoubleOps0:=ieee)
           Scenario.gdp 3 Scenario.building_fitted
           (-1)%float 1.25%float 1%float (-0.5)%float 0.5%float);
    concrete.
Defined.

(** ** The segmented strategy: TranSector *)

Section TranFacts.
Context {D : Type} `{!DoubleOps D}.
Local Open Scope double_scope.
Import Tran.

Implicit Types (t : TranSector D) (gdp : GDP D) (p : nat) (modeltime : Modeltime).

Lemma calibrate_result gdp p t (svc lic pE iE : D) :
  service t !! p = Some svc ->
  percentLicensed t !! p = Some lic ->
  pElasticity t !! p = Some pE ->
  iElasticity t !! p = Some iE ->
  p < length (servicePreTechChange t) ->
  calibrate gdp p t =
    Some (set_servicePreTechChange (<[p:=svc]> (servicePreTechChange t))
           (set_baseScalerNotLic (fittedScaler gdp p (perCapitaBased t) svc (d1 - lic) pE iE)
             (set_baseScaler (fittedScaler gdp p (perCapitaBased t) svc lic pE iE)
               (set_priceRatioNotLic d1 (set_priceRatio d1 t))))).
Proof.
  intros Hs Hl HpE HiE Hpre. unfold calibrate, fittedScaler.
  destruct t as [n r pc pe ie ae sp pre svcs out pr prn bs bsn pl]; simpl in *.
  assert (Hsvc : p < length svcs) by (eapply lookup_lt_Some; eassumption).
  destruct pc; simpl; rewrite Hs, Hl, ?HpE, HiE; simpl;
    rewrite Hs; simpl; rewrite !vec_write_in_range by assumption; simpl;
    rewrite (list_insert_id _ _ _ Hs); reflexivity.
Qed.

Lemma project_result modeltime gdp p t (cur prev pE iE a : D) :
  sectorprice t !! p = Some cur ->
  sectorprice t !! (p - 1)%nat = Some prev ->
  pElasticity t !! p = Some pE ->
  iElasticity t !! p = Some iE ->
  aeei t !! p = Some a ->
  p < length (servicePreTechChange t) ->
  p < length (service t) ->
  let ser_dmd :=
    projectedDemand gdp p (perCapitaBased t) (baseScaler t) (baseScalerNotLic t)
      (cur / prev) pE iE in
  project modeltime gdp p t =
    Some (set_service
           (<[p := ser_dmd / dpow (d1 + a) (of_int (gettimestep modeltime p))]> (service t))
           (set_servicePreTechChange (<[p:=ser_dmd]> (servicePreTechChange t))
             (set_priceRatioNotLic (cur / prev) (set_priceRatio (cur / prev) t)))).
Proof.
  intros Hc Hv HpE HiE Ha Hpre Hsvc. unfold project, projectedDemand.
  destruct t as [n r pc pe ie ae sp pre svcs out pr prn bs bsn pl]; simpl in *.
  rewrite Hc, Hv; simpl. rewrite HpE, HiE; simpl.
  destruct pc; simpl; rewrite vec_write_in_range by assumption; simpl;
    rewrite Ha; simpl; rewrite vec_write_in_range by assumption; reflexivity.
Qed.

(** C3.  In periods 0 and 1 [TranSector::aggdemand] calibrates whatever
    the sector holds: both price ratios become 1.0, [baseScaler] is fitted
    to [service[p] * percentLicensed[p]] and [baseScalerNotLic] to
    [service[p] * (1 - percentLicensed[p])] (in the per-capita or the
    aggregate form), [service] is left as it was, and
    [servicePreTechChange[p]] is [service[p]]. *)
Theorem C3_tran_base_periods_calibrate modeltime gdp p t (svc lic pE iE : D) :
  p = 0 ∨ p = 1 ->
  service t !! p = Some svc ->
  percentLicensed t !! p = Some lic ->
  pElasticity t !! p = Some pE ->
  iElasticity t !! p = Some iE ->
  p < length (servicePreTechChange t) ->
  p < length (output t) ->
  ∃ t', aggdemand modeltime gdp p t = Some t'
    ∧ priceRatio t' = d1
    ∧ priceRatioNotLic t' = d1
    ∧ baseScaler t' =
        (if perCapitaBased t then
           svc * lic * dpow (getBestScaledGDPperCap gdp p) (- iE)
           / (getApproxScaledGDP gdp p / getBestScaledGDPperCap gdp p)
         else svc * lic * dpow d1 (- pE) * dpow (getApproxScaledGDP gdp p) (- iE))
    ∧ baseScalerNotLic t' =
        (if perCapitaBased t then
           svc * (d1 - lic) * dpow (getBestScaledGDPperCap gdp p) (- iE)
           / (getApproxScaledGDP gdp p / getBestScaledGDPperCap gdp p)
         else svc * (d1 - lic) * dpow d1 (- pE) * dpow (getApproxScaledGDP gdp p) (- iE))
    ∧ service t' = service t
    ∧ servicePreTechChange t' !! p = Some svc
    ∧ output t' !! p = Some svc.
Proof.
  intros Hp Hs Hl HpE HiE Hpre Hout. unfold aggdemand.
  rewrite decide_True by exact Hp.
  rewrite (calibrate_result gdp p t svc lic pE iE) by assumption. simpl.
  rewrite Hs; simpl. rewrite vec_write_in_range by assumption.
  eexists; split; [reflexivity |]. simpl. unfold fittedScaler.
  rewrite !list_lookup_insert_eq by assumption. repeat split; reflexivity.
Qed.

(** C7.  [checkSectorCalData] replaces [service[p]] by the calibrated
    output and logs, at level DEBUG, the factor [calibrated output /
    previous service[p]] when every input of the period is fixed; when
    not, the sector and the log are returned as they were.  Either way
    the call returns. *)
Theorem C7_checkSectorCalData_reconciles (cal : CalData D) p t (mainLog : MainLog D) (old : D) :
  (inputsAllFixed cal p = true -> service t !! p = Some old) ->
  ∃ t' mainLog', checkSectorCalData cal p t mainLog = Some (t', mainLog')
    ∧ if inputsAllFixed cal p then
        t' = set_service (<[p := getCalOutput cal p]> (service t)) t
        ∧ service t' !! p = Some (getCalOutput cal p)
        ∧ mainLog' =
            (mainLog ++ [mkLogEntry DEBUG
               [Text "Calibrated Demand Scaled by ";
                DoubleVal (getCalOutput cal p / old);
                Text " in region "; Text (regionName t);
                Text " sector "; Text (name t)]])%list
      else t' = t ∧ mainLog' = mainLog.
Proof.
  intros Hold. unfold checkSectorCalData.
  destruct (inputsAllFixed cal p).
  - specialize (Hold eq_refl). rewrite Hold; simpl.
    assert (Hlt : p < length (service t)) by (eapply lookup_lt_Some; eassumption).
    rewrite vec_write_in_range by assumption; simpl.
    eexists _, _. split; [reflexivity |]. repeat split.
    simpl. apply list_lookup_insert_eq. assumption.
  - eexists _, _. split; [reflexivity |]. split; reflexivity.
Qed.

End TranFacts.

Lemma C3_witness :
  ∃ t', Tran.aggdemand (DoubleOps0:=ieee) Scenario.modeltime Scenario.gdp 1
          (Scenario.tran true [0; 0; 0; 0]%float [1; 1; 1; 1]%float) = Some t'
    ∧ Tran.priceRatio t' = 1%float
    ∧ Tran.priceRatioNotLic t' = 1%float
    ∧ Tran.baseScaler t' = (100 * 0.5 * pow_dyadic 10 (-0.5) / (100 / 10))%float
    ∧ Tran.baseScalerNotLic t' = (100 * (1 - 0.5) * pow_dyadic 10 (-0.5) / (100 / 10))%float
    ∧ Tran.service t' = [100; 100; 0; 0]%float
    ∧ Tran.servicePreTechChange t' !! 1%nat = Some 100%float
    ∧ Tran.output t' !! 1%nat = Some 100%float.
Proof.
  apply (C3_tran_base_periods_calibrate (DoubleOps0:=ieee) Scenario.modeltime Scenario.gdp 1
           (Scenario.tran true [0; 0; 0; 0]%float [1; 1; 1; 1]%float)
           100%float 0.5%float (-0.5)%float 0.5%float);
    concrete.
Defined.

Lemma C7_witness :
  ∃ t' mainLog',
    Tran.checkSectorCalData (DoubleOps0:=ieee) Scenario.cal 1
      (Scenario.tran false [0; 0; 0; 0]%float [1; 1; 1; 1]%float) [] = Some (t', mainLog')
    ∧ t' = Tran.set_service [100; 125; 0; 0]%float
             (Scenario.tran false [0; 0; 0; 0]%float [1; 1; 1; 1]%float)
    ∧ Tran.service t' !! 1%nat = Some 125%float
    ∧ mainLog' =
        [mkLogEntry DEBUG
           [Text "Calibrated Demand Scaled by "; DoubleVal 1.25%float;
            Text " in region "; Text "USA"; Text " sector "; Text "transportation"]].
Proof.
  apply (C7_checkSectorCalData_reconciles (DoubleOps0:=ieee) Scenario.cal 1
           (Scenario.tran false [0; 0; 0; 0]%float [1; 1; 1; 1]%float) [] 100%float).
  concrete.
Defined.

(** ** Later periods of the segmented strategy *)

Section TranLater.
Context {D : Type} `{!DoubleOps D}.
Local Open Scope double_scope.
Import Tran.

Implicit Types (t : TranSector D) (gdp : GDP D) (p : nat) (modeltime : Modeltime).

Lemma aggdemand_later modeltime gdp p t (cur prev pE iE a : D) :
  2 <= p ->
  sectorprice t !! p = Some cur ->
  sectorprice t !! (p - 1)%nat = Some prev ->
  pElasticity t !! p = Some pE ->
  iElasticity t !! p = Some iE ->
  aeei t !! p = Some a ->
  p < length (servicePreTechChange t) ->
  p < length (service t) ->
  p < length (output t) ->
  let ser_dmd :=
    projectedDemand gdp p (perCapitaBased t) (baseScaler t) (baseScalerNotLic t)
      (cur / prev) pE iE in
  let trended := ser_dmd / dpow (d1 + a) (of_int (gettimestep modeltime p)) in
  aggdemand modeltime gdp p t =
    Some (set_output (<[p:=trended]> (output t))
           (set_service (<[p:=trended]> (service t))
             (set_servicePreTechChange (<[p:=ser_dmd]> (servicePreTechChange t))
               (set_priceRatioNotLic (cur / prev) (set_priceRatio (cur / prev) t))))).
Proof.
  intros Hp Hc Hv HpE HiE Ha Hpre Hsvc Hout ser_dmd trended. unfold aggdemand.
  rewrite decide_False by lia.
  rewrite (project_result modeltime gdp p t cur prev pE iE a) by assumption.
  simpl. rewrite list_lookup_insert_eq by assumption. simpl.
  rewrite vec_write_in_range by assumption. reflexivity.
Qed.

End TranLater.

(** C4 (the code departs from it).  The aggregate-GDP branch of a later
    period uses [baseScaler] alone.  With half of the base demand 100 in
    the not-licensed segment, both scalers are fitted to 5 in period 1,
    and period 2 projects 55, where the sum over the two segments is 110;
    the trend division and the copy into [output] are as stated. *)
Theorem C4_aggregate_projection_omits_not_licensed :
  (t1 ← Tran.aggdemand (DoubleOps0:=ieee) Scenario.modeltime Scenario.gdp 1
          (Scenario.tran false [0; 0; 0; 0]%float [1; 1; 1; 1]%float);
   t2 ← Tran.aggdemand (DoubleOps0:=ieee) Scenario.modeltime Scenario.gdp 2 t1;
   Some (Tran.baseScaler t1, Tran.baseScalerNotLic t1,
         Tran.servicePreTechChange t2 !! 2%nat,
         Tran.service t2 !! 2%nat, Tran.output t2 !! 2%nat))
  = Some (5, 5, Some 55, Some (55 / pow_dyadic (1 + 0) 15), Some (55 / pow_dyadic (1 + 0) 15))%float
  ∧ (5 * pow_dyadic (1 / 1) (-0.5) * pow_dyadic 121 0.5
     + 5 * pow_dyadic (1 / 1) (-0.5) * pow_dyadic 121 0.5 = 110)%float.
Proof.
  split; vm_compute; reflexivity.
Qed.

(** ** Projection periods leave the fit alone *)

Section ScalerStability.
Context {D : Type} `{!DoubleOps D}.
Local Open Scope double_scope.

(** A projection of the simple strategy changes the two demand vectors
    only. *)
Lemma building_projection_frame (gdp : GDP D) p (s : Building.BuildingDemandSector D)
    (base ratio pE iE : D) :
  Building.baseService s !! p = Some base ->
  (base >=? d0) = false ->
  Building.priceRatioAt p s = Some ratio ->
  Building.pElasticity s !! p = Some pE ->
  Building.iElasticity s !! p = Some iE ->
  p < length (Building.servicePreTechChange s) ->
  p < length (Building.service s) ->
  ∃ s', Building.aggdemand gdp p s = Some s'
    ∧ Building.baseScaler s' = Building.baseScaler s
    ∧ Building.baseService s' = Building.baseService s
    ∧ Building.perCapitaBased s' = Building.perCapitaBased s
    ∧ Building.pElasticity s' = Building.pElasticity s
    ∧ Building.iElasticity s' = Building.iElasticity s
    ∧ Building.sectorprice s' = Building.sectorprice s
    ∧ length (Building.servicePreTechChange s') = length (Building.servicePreTechChange s)
    ∧ length (Building.service s') = length (Building.service s)
    ∧ Building.service s' !! p =
        Some (if Building.perCapitaBased s then
                Building.baseScaler s * dpow ratio pE * dpow (getBestScaledGDPperCap gdp p) iE
                * (getApproxScaledGDP gdp p / getBestScaledGDPperCap gdp p)
              else Building.baseScaler s * dpow ratio pE * dpow (getApproxScaledGDP gdp p) iE).
Proof.
  intros Hb Hge Hr HpE HiE Hpre Hsvc.
  eexists. split; [eapply aggdemand_projection; eassumption |].
  simpl. rewrite !length_insert, list_lookup_insert_eq by assumption.
  repeat split; reflexivity.
Qed.

(** A later period of the segmented strategy changes the price ratios
    and the three demand vectors only. *)
Lemma tran_later_frame (modeltime : Modeltime) (gdp : GDP D) p (t : Tran.TranSector D)
    (cur prev pE iE a : D) :
  2 <= p ->
  Tran.sectorprice t !! p = Some cur ->
  Tran.sectorprice t !! (p - 1)%nat = Some prev ->
  Tran.pElasticity t !! p = Some pE ->
  Tran.iElasticity t !! p = Some iE ->
  Tran.aeei t !! p = Some a ->
  p < length (Tran.servicePreTechChange t) ->
  p < length (Tran.service t) ->
  p < length (Tran.output t) ->
  ∃ t', Tran.aggdemand modeltime gdp p t = Some t'
    ∧ Tran.baseScaler t' = Tran.baseScaler t
    ∧ Tran.baseScalerNotLic t' = Tran.baseScalerNotLic t
    ∧ Tran.perCapitaBased t' = Tran.perCapitaBased t
    ∧ Tran.pElasticity t' = Tran.pElasticity t
    ∧ Tran.iElasticity t' = Tran.iElasticity t
    ∧ Tran.aeei t' = Tran.aeei t
    ∧ Tran.sectorprice t' = Tran.sectorprice t
    ∧ Tran.percentLicensed t' = Tran.percentLicensed t
    ∧ length (Tran.servicePreTechChange t') = length (Tran.servicePreTechChange t)
    ∧ length (Tran.service t') = length (Tran.service t)
    ∧ length (Tran.output t') = length (Tran.output t)
    ∧ Tran.servicePreTechChange t' !! p =
        Some (projectedDemand gdp p (Tran.perCapitaBased t) (Tran.baseScaler t)
                (Tran.baseScalerNotLic t) (cur / prev) pE iE)
    ∧ Tran.service t' !! p =
        Some (projectedDemand gdp p (Tran.perCapitaBased t) (Tran.baseScaler t)
                (Tran.baseScalerNotLic t) (cur / prev) pE iE
              / dpow (d1 + a) (of_int (gettimestep modeltime p)))
    ∧ Tran.output t' !! p = Tran.service t' !! p.
Proof.
  intros Hp Hc Hv HpE HiE Ha Hpre Hsvc Hout.
  eexists. split; [eapply aggdemand_later; eassumption |].
  simpl. rewrite !length_insert, !list_lookup_insert_eq by assumption.
  repeat split; reflexivity.
Qed.

(** C5 (as amended).  A projection period refits nothing: the simple
    strategy leaves [baseScaler] and [baseService] as they were, and the
    segmented strategy leaves [baseScaler] and [baseScalerNotLic] as they
    were.  So two projection periods run one after the other with the same
    price ratio, GDP figures and elasticities store the same [service]
    in the simple strategy; in the segmented strategy they store the same
    [servicePreTechChange], whatever the trend rates of the two periods,
    and the same [service] when the trend rate and the timestep agree as
    well. *)
Theorem C5_projection_keeps_scalers :
  (∀ (gdp : GDP D) p (s : Building.BuildingDemandSector D) (base ratio pE iE : D),
     Building.baseService s !! p = Some base ->
     (base >=? d0) = false ->
     Building.priceRatioAt p s = Some ratio ->
     Building.pElasticity s !! p = Some pE ->
     Building.iElasticity s !! p = Some iE ->
     p < length (Building.servicePreTechChange s) ->
     p < length (Building.service s) ->
     ∃ s', Building.aggdemand gdp p s = Some s'
       ∧ Building.baseScaler s' = Building.baseScaler s
       ∧ Building.baseService s' = Building.baseService s)
  ∧ (∀ (gdp : GDP D) p q (s : Building.BuildingDemandSector D)
       (base_p base_q ratio pE iE : D),
     Building.baseService s !! p = Some base_p -> (base_p >=? d0) = false ->
     Building.baseService s !! q = Some base_q -> (base_q >=? d0) = false ->
     Building.priceRatioAt p s = Some ratio -> Building.priceRatioAt q s = Some ratio ->
     Building.pElasticity s !! p = Some pE -> Building.pElasticity s !! q = Some pE ->
     Building.iElasticity s !! p = Some iE -> Building.iElasticity s !! q = Some iE ->
     getBestScaledGDPperCap gdp p = getBestScaledGDPperCap gdp q ->
     getApproxScaledGDP gdp p = getApproxScaledGDP gdp q ->
     p < length (Building.servicePreTechChange s) -> p < length (Building.service s) ->
     q < length (Building.servicePreTechChange s) -> q < length (Building.service s) ->
     ∃ s1 s2, Building.aggdemand gdp p s = Some s1
       ∧ Building.aggdemand gdp q s1 = Some s2
       ∧ Building.service s2 !! q = Building.service s1 !! p)
  ∧ (∀ (modeltime : Modeltime) (gdp : GDP D) p (t : Tran.TranSector D)
       (cur prev pE iE a : D),
     2 <= p ->
     Tran.sectorprice t !! p = Some cur ->
     Tran.sectorprice t !! (p - 1)%nat = Some prev ->
     Tran.pElasticity t !! p = Some pE ->
     Tran.iElasticity t !! p = Some iE ->
     Tran.aeei t !! p = Some a ->
     p < length (Tran.servicePreTechChange t) ->
     p < length (Tran.service t) ->
     p < length (Tran.output t) ->
     ∃ t', Tran.aggdemand modeltime gdp p t = Some t'
       ∧ Tran.baseScaler t' = Tran.baseScaler t
       ∧ Tran.baseScalerNotLic t' = Tran.baseScalerNotLic t)
  ∧ (∀ (modeltime : Modeltime) (gdp : GDP D) p q (t : Tran.TranSector D)
       (cur_p prev_p cur_q prev_q pE iE a_p a_q : D),
     2 <= p -> 2 <= q ->
     Tran.sectorprice t !! p = Some cur_p ->
     Tran.sectorprice t !! (p - 1)%nat = Some prev_p ->
     Tran.sectorprice t !! q = Some cur_q ->
     Tran.sectorprice t !! (q - 1)%nat = Some prev_q ->
     cur_p / prev_p = cur_q / prev_q ->
     Tran.pElasticity t !! p = Some pE -> Tran.pElasticity t !! q = Some pE ->
     Tran.iElasticity t !! p = Some iE -> Tran.iElasticity t !! q = Some iE ->
     getBestScaledGDPperCap gdp p = getBestScaledGDPperCap gdp q ->
     getApproxScaledGDP gdp p = getApproxScaledGDP gdp q ->
     Tran.aeei t !! p = Some a_p -> Tran.aeei t !! q = Some a_q ->
     p < length (Tran.servicePreTechChange t) -> p < length (Tran.service t) ->
     p < length (Tran.output t) ->
     q < length (Tran.servicePreTechChange t) -> q < length (Tran.service t) ->
     q < length (Tran.output t) ->
     ∃ t1 t2, Tran.aggdemand modeltime gdp p t = Some t1
       ∧ Tran.aggdemand modeltime gdp q t1 = Some t2
       ∧ Tran.servicePreTechChange t2 !! q = Tran.servicePreTechChange t1 !! p
       ∧ (a_p = a_q -> gettimestep modeltime p = gettimestep modeltime q ->
          Tran.service t2 !! q = Tran.service t1 !! p)).
Proof.
  split; [| split; [| split]].
  - intros gdp p s base ratio pE iE Hb Hge Hr HpE HiE Hpre Hsvc.
    destruct (building_projection_frame gdp p s base ratio pE iE)
      as (s' & Hrun & Hbs & Hbsv & _); try assumption.
    exists s'. auto.
  - intros gdp p q s base_p base_q ratio pE iE
      Hbp Hgp Hbq Hgq Hrp Hrq HpEp HpEq HiEp HiEq Hcap Hagg Hpre Hsvc Hpreq Hsvcq.
    destruct (building_projection_frame gdp p s base_p ratio pE iE)
      as (s1 & Hrun1 & Hbs & Hbsv & Hpc & Hpe & Hie & Hsp & Hl1 & Hl2 & Hval1);
      try assumption.
    destruct (building_projection_frame gdp q s1 base_q ratio pE iE)
      as (s2 & Hrun2 & _ & _ & _ & _ & _ & _ & _ & _ & Hval2);
      try congruence; try lia.
    { unfold Building.priceRatioAt in *. rewrite Hsp. exact Hrq. }
    exists s1, s2. split; [exact Hrun1 |]. split; [exact Hrun2 |].
    rewrite Hval1, Hval2, Hpc, Hbs, Hcap, Hagg. reflexivity.
  - intros modeltime gdp p t cur prev pE iE a Hp Hc Hv HpE HiE Ha Hpre Hsvc Hout.
    destruct (tran_later_frame modeltime gdp p t cur prev pE iE a)
      as (t' & Hrun & Hbs & Hbn & _); try assumption.
    exists t'. auto.
  - intros modeltime gdp p q t cur_p prev_p cur_q prev_q pE iE a_p a_q
      Hp Hq Hcp Hvp Hcq Hvq Hratio HpEp HpEq HiEp HiEq Hcap Hagg Hap Haq
      Hpre Hsvc Hout Hpreq Hsvcq Houtq.
    destruct (tran_later_frame modeltime gdp p t cur_p prev_p pE iE a_p)
      as (t1 & Hrun1 & Hbs & Hbn & Hpc & Hpe & Hie & Hae & Hsp & _ & Hl1 & Hl2 & Hl3
          & Hpre1 & Hval1 & _);
      try assumption.
    destruct (tran_later_frame modeltime gdp q t1 cur_q prev_q pE iE a_q)
      as (t2 & Hrun2 & _ & _ & _ & _ & _ & _ & _ & _ & _ & _ & _ & Hpre2 & Hval2 & _);
      try congruence; try lia.
    exists t1, t2. split; [exact Hrun1 |]. split; [exact Hrun2 |].
    rewrite Hpre1, Hpre2, Hval1, Hval2, Hpc, Hbs, Hbn, Hratio.
    unfold projectedDemand. rewrite Hcap, Hagg. split; [reflexivity |].
    intros <- <-. reflexivity.
Qed.

End ScalerStability.

(** Periods 2 and 3 of a transport sector agree in price ratio, GDP
    figures, elasticities and scalers, and differ in the trend rate (0 and
    1): [service] is 55 in one and 55/32768 in the other. *)
Lemma C5_counterexample :
  Tran.pElasticity (Scenario.tran_fitted [0; 0; 0; 1]%float [1; 1; 1; 1]%float) !! 2%nat
  = Tran.pElasticity (Scenario.tran_fitted [0; 0; 0; 1]%float [1; 1; 1; 1]%float) !! 3%nat
  ∧ Tran.iElasticity (Scenario.tran_fitted [0; 0; 0; 1]%float [1; 1; 1; 1]%float) !! 2%nat
    = Tran.iElasticity (Scenario.tran_fitted [0; 0; 0; 1]%float [1; 1; 1; 1]%float) !! 3%nat
  ∧ getBestScaledGDPperCap Scenario.gdp 2 = getBestScaledGDPperCap Scenario.gdp 3
  ∧ getApproxScaledGDP Scenario.gdp 2 = getApproxScaledGDP Scenario.gdp 3
  ∧ (t2 ← Tran.aggdemand (DoubleOps0:=ieee) Scenario.modeltime Scenario.gdp 2
             (Scenario.tran_fitted [0; 0; 0; 1]%float [1; 1; 1; 1]%float);
     t3 ← Tran.aggdemand (DoubleOps0:=ieee) Scenario.modeltime Scenario.gdp 3 t2;
     Some (Tran.priceRatio t2, Tran.priceRatio t3,
           Tran.baseScaler t3, Tran.baseScalerNotLic t3,
           Tran.service t3 !! 2%nat, Tran.service t3 !! 3%nat))
    = Some (1, 1, 5, 5, Some 55, Some 0.001678466796875)%float.
Proof.
  repeat split; vm_compute; reflexivity.
Qed.

(** The same two periods of the same sector: whatever the trend rates,
    [servicePreTechChange] is the same in both; with the trend rate 1/4 in
    both periods [service] is the same as well. *)
Lemma C5_witness :
  (∃ t1 t2,
     Tran.aggdemand (DoubleOps0:=ieee) Scenario.modeltime Scenario.gdp 2
       (Scenario.tran_fitted [0; 0; 0; 1]%float [1; 1; 1; 1]%float) = Some t1
     ∧ Tran.aggdemand (DoubleOps0:=ieee) Scenario.modeltime Scenario.gdp 3 t1 = Some t2
     ∧ Tran.servicePreTechChange t2 !! 3%nat = Tran.servicePreTechChange t1 !! 2%nat)
  ∧ (∃ t1 t2,
       Tran.aggdemand (DoubleOps0:=ieee) Scenario.modeltime Scenario.gdp 2
         (Scenario.tran_fitted [0; 0; 0.25; 0.25]%float [1; 1; 1; 1]%float) = Some t1
       ∧ Tran.aggdemand (DoubleOps0:=ieee) Scenario.modeltime Scenario.gdp 3 t1 = Some t2
       ∧ Tran.servicePreTechChange t2 !! 3%nat = Tran.servicePreTechChange t1 !! 2%nat
       ∧ Tran.service t2 !! 3%nat = Tran.service t1 !! 2%nat).
Proof.
  destruct (C5_projection_keeps_scalers (D:=float) (DoubleOps0:=ieee)) as (_ & _ & _ & Hsame).
  split.
  - destruct (Hsame Scenario.modeltime Scenario.gdp 2 3
                (Scenario.tran_fitted [0; 0; 0; 1]%float [1; 1; 1; 1]%float)
                1%float 1%float 1%float 1%float (-0.5)%float 0.5%float 0%float 1%float)
      as (t1 & t2 & Hrun1 & Hrun2 & Hpre & _); try concrete.
    exists t1, t2. auto.
  - destruct (Hsame Scenario.modeltime Scenario.gdp 2 3
                (Scenario.tran_fitted [0; 0; 0.25; 0.25]%float [1; 1; 1; 1]%float)
                1%float 1%float 1%float 1%float (-0.5)%float 0.5%float 0.25%float 0.25%float)
      as (t1 & t2 & Hrun1 & Hrun2 & Hpre & Hsvc); try concrete.
    exists t1, t2. repeat split; try assumption. apply Hsvc; reflexivity.
Defined.

(** ** No driver is rejected *)

Section Totality.
Context {D : Type} `{!DoubleOps D}.
Local Open Scope double_scope.

Lemma tran_base_frame (modeltime : Modeltime) (gdp : GDP D) p (t : Tran.TranSector D)
    (svc lic pE iE : D) :
  p = 0 ∨ p = 1 ->
  Tran.service t !! p = Some svc ->
  Tran.percentLicensed t !! p = Some lic ->
  Tran.pElasticity t !! p = Some pE ->
  Tran.iElasticity t !! p = Some iE ->
  p < length (Tran.servicePreTechChange t) ->
  p < length (Tran.output t) ->
  ∃ t', Tran.aggdemand modeltime gdp p t = Some t'
    ∧ Tran.service t' = Tran.service t
    ∧ Tran.servicePreTechChange t' !! p = Some svc
    ∧ Tran.baseScaler t' = fittedScaler gdp p (Tran.perCapitaBased t) svc lic pE iE
    ∧ Tran.baseScalerNotLic t' =
        fittedScaler gdp p (Tran.perCapitaBased t) svc (d1 - lic) pE iE.
Proof.
  intros Hp Hs Hl HpE HiE Hpre Hout. unfold Tran.aggdemand.
  rewrite decide_True by exact Hp.
  rewrite (calibrate_result gdp p t svc lic pE iE) by assumption. simpl.
  rewrite Hs; simpl. rewrite vec_write_in_range by assumption.
  eexists; split; [reflexivity |]. simpl.
  rewrite !list_lookup_insert_eq by assumption. repeat split; reflexivity.
Qed.

Lemma building_priceRatioAt_sized n p (s : Building.BuildingDemandSector D) :
  Building.sized n s -> p < n -> is_Some (Building.priceRatioAt p s).
Proof.
  intros (_ & _ & Hsp & _) Hp. unfold Building.priceRatioAt.
  case_decide; [| eexists; reflexivity].
  destruct (lookup_lt_is_Some_2 (Building.sectorprice s) p) as [cur ->]; [lia |].
  destruct (lookup_lt_is_Some_2 (Building.sectorprice s) (p - 1)) as [prev ->]; [lia |].
  eexists; reflexivity.
Qed.

(** On a sector whose vectors hold [maxper] entries, [aggdemand] returns
    for every period below [maxper], whatever the GDP figures are. *)
Lemma building_aggdemand_total n (gdp : GDP D) p (s : Building.BuildingDemandSector D) :
  Building.sized n s -> p < n ->
  ∃ s' v, Building.aggdemand gdp p s = Some s'
    ∧ Building.service s' !! p = Some v
    ∧ Building.servicePreTechChange s' !! p = Some v.
Proof.
  intros Hsized Hp.
  destruct (building_priceRatioAt_sized n p s Hsized Hp) as [ratio Hr].
  destruct Hsized as (HpE & HiE & Hsp & Hpre & Hsvc & Hbase).
  destruct (lookup_lt_is_Some_2 (Building.pElasticity s) p) as [pE HpE']; [lia |].
  destruct (lookup_lt_is_Some_2 (Building.iElasticity s) p) as [iE HiE']; [lia |].
  destruct (lookup_lt_is_Some_2 (Building.baseService s) p) as [base Hb]; [lia |].
  destruct (base >=? d0) eqn:Hge.
  - eexists _, _. split.
    + eapply aggdemand_calibration; try eassumption; lia.
    + simpl. rewrite !list_lookup_insert_eq by lia. split; reflexivity.
  - eexists _, _. split.
    + eapply aggdemand_projection; try eassumption; lia.
    + simpl. rewrite !list_lookup_insert_eq by lia. split; reflexivity.
Qed.

Lemma tran_aggdemand_total n (modeltime : Modeltime) (gdp : GDP D) p (t : Tran.TranSector D) :
  Tran.sized n t -> p < n ->
  ∃ t' v w, Tran.aggdemand modeltime gdp p t = Some t'
    ∧ Tran.service t' !! p = Some v
    ∧ Tran.servicePreTechChange t' !! p = Some w.
Proof.
  intros (HpE & HiE & Hae & Hsp & Hpre & Hsvc & Hout & Hlic) Hp.
  destruct (lookup_lt_is_Some_2 (Tran.pElasticity t) p) as [pE HpE']; [lia |].
  destruct (lookup_lt_is_Some_2 (Tran.iElasticity t) p) as [iE HiE']; [lia |].
  destruct (decide (p = 0 ∨ p = 1)) as [Hbase | Hlater].
  - destruct (lookup_lt_is_Some_2 (Tran.service t) p) as [svc Hs]; [lia |].
    destruct (lookup_lt_is_Some_2 (Tran.percentLicensed t) p) as [lic Hl]; [lia |].
    destruct (tran_base_frame modeltime gdp p t svc lic pE iE) as (t' & Hrun & Hsame & Hw & _);
      try assumption; try lia.
    exists t', svc, svc. rewrite Hsame. auto.
  - destruct (lookup_lt_is_Some_2 (Tran.sectorprice t) p) as [cur Hc]; [lia |].
    destruct (lookup_lt_is_Some_2 (Tran.sectorprice t) (p - 1)) as [prev Hv]; [lia |].
    destruct (lookup_lt_is_Some_2 (Tran.aeei t) p) as [a Ha]; [lia |].
    destruct (tran_later_frame modeltime gdp p t cur prev pE iE a)
      as (t' & Hrun & _ & _ & _ & _ & _ & _ & _ & _ & _ & _ & _ & Hw & Hv' & _);
      try assumption; try lia.
    eexists t', _, _. eauto.
Qed.

End Totality.

Section ZeroPerCapita.
Context {D : Type} `{!DoubleOps D}.
Local Open Scope double_scope.

(** C8 (as amended).  A zero per-capita GDP is not rejected.  In
    per-capita mode with [gdpPerCapita = 0], [aggdemand] of either
    strategy returns on every sector whose vectors are sized and writes
    [service[p]] and [servicePreTechChange[p]]; a projection of the simple
    strategy stores [baseScaler * priceRatio^pElasticity[p] *
    0^iElasticity[p] * (gdpAggregate / 0)], and a base period of the
    segmented strategy fits the scalers with the same division by
    [gdpAggregate / 0]. *)
Theorem C8_zero_perCapita_is_not_rejected :
  (∀ n (gdp : GDP D) p (s : Building.BuildingDemandSector D),
     Building.sized n s -> p < n ->
     Building.perCapitaBased s = true ->
     getBestScaledGDPperCap gdp p = d0 ->
     ∃ s' v, Building.aggdemand gdp p s = Some s'
       ∧ Building.service s' !! p = Some v
       ∧ Building.servicePreTechChange s' !! p = Some v)
  ∧ (∀ (gdp : GDP D) p (s : Building.BuildingDemandSector D) (base ratio pE iE : D),
     Building.perCapitaBased s = true ->
     getBestScaledGDPperCap gdp p = d0 ->
     Building.baseService s !! p = Some base ->
     (base >=? d0) = false ->
     Building.priceRatioAt p s = Some ratio ->
     Building.pElasticity s !! p = Some pE ->
     Building.iElasticity s !! p = Some iE ->
     p < length (Building.servicePreTechChange s) ->
     p < length (Building.service s) ->
     ∃ s', Building.aggdemand gdp p s = Some s'
       ∧ Building.service s' !! p =
           Some (Building.baseScaler s * dpow ratio pE * dpow d0 iE
                 * (getApproxScaledGDP gdp p / d0)))
  ∧ (∀ n (modeltime : Modeltime) (gdp : GDP D) p (t : Tran.TranSector D),
     Tran.sized n t -> p < n ->
     Tran.perCapitaBased t = true ->
     getBestScaledGDPperCap gdp p = d0 ->
     ∃ t' v w, Tran.aggdemand modeltime gdp p t = Some t'
       ∧ Tran.service t' !! p = Some v
       ∧ Tran.servicePreTechChange t' !! p = Some w)
  ∧ (∀ (modeltime : Modeltime) (gdp : GDP D) p (t : Tran.TranSector D) (svc lic pE iE : D),
     Tran.perCapitaBased t = true ->
     getBestScaledGDPperCap gdp p = d0 ->
     p = 0 ∨ p = 1 ->
     Tran.service t !! p = Some svc ->
     Tran.percentLicensed t !! p = Some lic ->
     Tran.pElasticity t !! p = Some pE ->
     Tran.iElasticity t !! p = Some iE ->
     p < length (Tran.servicePreTechChange t) ->
     p < length (Tran.output t) ->
     ∃ t', Tran.aggdemand modeltime gdp p t = Some t'
       ∧ Tran.baseScaler t' =
           svc * lic * dpow d0 (- iE) / (getApproxScaledGDP gdp p / d0)
       ∧ Tran.baseScalerNotLic t' =
           svc * (d1 - lic) * dpow d0 (- iE) / (getApproxScaledGDP gdp p / d0)).
Proof.
  split; [| split; [| split]].
  - intros n gdp p s Hsized Hp _ _. eapply building_aggdemand_total; eassumption.
  - intros gdp p s base ratio pE iE Hpc Hzero Hb Hge Hr HpE HiE Hpre Hsvc.
    destruct (building_projection_frame gdp p s base ratio pE iE)
      as (s' & Hrun & _ & _ & _ & _ & _ & _ & _ & _ & Hval); try assumption.
    exists s'. split; [exact Hrun |].
    rewrite Hval, Hpc, Hzero. reflexivity.
  - intros n modeltime gdp p t Hsized Hp _ _. eapply tran_aggdemand_total; eassumption.
  - intros modeltime gdp p t svc lic pE iE Hpc Hzero Hp Hs Hl HpE HiE Hpre Hout.
    destruct (tran_base_frame modeltime gdp p t svc lic pE iE)
      as (t' & Hrun & _ & _ & Hbs & Hbn); try assumption.
    exists t'. split; [exact Hrun |].
    rewrite Hbs, Hbn. unfold fittedScaler. rewrite Hpc, Hzero. split; reflexivity.
Qed.

End ZeroPerCapita.

(** On binary64, a product with an infinity is an infinity or NaN. *)
Lemma mul_infinity_not_finite (x : float) :
  finite (PrimFloat.mul x PrimFloat.infinity) = false.
Proof.
  unfold finite. rewrite mul_spec.
  change (Prim2SF PrimFloat.infinity) with (S754_infinity false).
  destruct (Prim2SF x) as [sx|sx| |sx mx ex]; reflexivity.
Qed.

(** Whatever [pow] returns, the projection of the simple strategy at a
    zero per-capita GDP stores a value that is not finite. *)
Lemma zero_perCapita_projection_not_finite (pw : float -> float -> float) :
  ∃ s' v,
    Building.aggdemand (DoubleOps0:=float_double pw) Scenario.gdp_zero_perCapita 2
      Scenario.building_perCapita_fitted = Some s'
    ∧ Building.service s' !! 2%nat = Some v
    ∧ Building.servicePreTechChange s' !! 2%nat = Some v
    ∧ finite v = false.
Proof.
  eexists _, _. split.
  - apply (aggdemand_projection (DoubleOps0:=float_double pw)
             Scenario.gdp_zero_perCapita 2 Scenario.building_perCapita_fitted
             (-1)%float 1%float 0%float 0%float);
      solve [reflexivity | simpl; lia].
  - simpl. split; [reflexivity |]. split; [reflexivity |].
    apply mul_infinity_not_finite.
Qed.

(** On binary64, with a zero per-capita GDP: the simple strategy stores
    an infinity in [service[2]] and [servicePreTechChange[2]], and the
    segmented strategy fits both scalers to NaN in period 1. *)
Lemma C8_counterexample :
  Building.perCapitaBased Scenario.building_perCapita_fitted = true
  ∧ getBestScaledGDPperCap Scenario.gdp_zero_perCapita 2 = 0%float
  ∧ (s' ← Building.aggdemand (DoubleOps0:=ieee) Scenario.gdp_zero_perCapita 2
             Scenario.building_perCapita_fitted;
     Some (Building.service s' !! 2%nat, Building.servicePreTechChange s' !! 2%nat))
    = Some (Some PrimFloat.infinity, Some PrimFloat.infinity)
  ∧ finite PrimFloat.infinity = false
  ∧ (t' ← Tran.aggdemand (DoubleOps0:=ieee) Scenario.modeltime Scenario.gdp_zero_perCapita 1
             (Scenario.tran true [0; 0; 0; 0]%float [1; 1; 1; 1]%float);
     Some (Tran.baseScaler t', Tran.baseScalerNotLic t'))
    = Some (PrimFloat.nan, PrimFloat.nan)
  ∧ finite PrimFloat.nan = false.
Proof.
  repeat split; vm_compute; reflexivity.
Qed.

Lemma C8_witness :
  ∃ s' v,
    Building.aggdemand (DoubleOps0:=ieee) Scenario.gdp_zero_perCapita 2
      Scenario.building_perCapita_fitted = Some s'
    ∧ Building.service s' !! 2%nat = Some v
    ∧ Building.servicePreTechChange s' !! 2%nat = Some v.
Proof.
  destruct (C8_zero_perCapita_is_not_rejected (D:=float) (DoubleOps0:=ieee)) as (Hruns & _).
  apply (Hruns 4 Scenario.gdp_zero_perCapita 2 Scenario.building_perCapita_fitted);
    concrete.
Defined.

(** ** The fallback of [initCalc] *)

Section InitCalc.
Context {D : Type} `{!DoubleOps D}.
Local Open Scope double_scope.

Lemma initCalc_unset p (s : Building.BuildingDemandSector D) (mainLog : MainLog D) :
  (Building.baseScaler s <? d0) = true ->
  Building.initCalc p s mainLog =
    (Building.set_baseScaler d1 s,
     (mainLog ++ [mkLogEntry WARNING
        [Text "WARNING: Building sector base demand service not set in period ";
         IntVal p; Text " sector "; Text (Building.name s);
         Text " region "; Text (Building.regionName s);
         Text ".  baseScaler being set to 1."]])%list).
Proof. intros Hlt. unfold Building.initCalc. rewrite Hlt. reflexivity. Qed.

Lemma initCalc_set p (s : Building.BuildingDemandSector D) (mainLog : MainLog D) :
  (Building.baseScaler s <? d0) = false ->
  Building.initCalc p s mainLog = (s, mainLog).
Proof. intros Hlt. unfold Building.initCalc. rewrite Hlt. reflexivity. Qed.

End InitCalc.

Section TranBase.
Context {D : Type} `{!DoubleOps D}.
Local Open Scope double_scope.

Lemma aggdemand_base (modeltime : Modeltime) (gdp : GDP D) p (t : Tran.TranSector D)
    (svc lic pE iE : D) :
  p = 0 ∨ p = 1 ->
  Tran.service t !! p = Some svc ->
  Tran.percentLicensed t !! p = Some lic ->
  Tran.pElasticity t !! p = Some pE ->
  Tran.iElasticity t !! p = Some iE ->
  p < length (Tran.servicePreTechChange t) ->
  p < length (Tran.output t) ->
  Tran.aggdemand modeltime gdp p t =
    Some (Tran.set_output (<[p:=svc]> (Tran.output t))
           (Tran.set_servicePreTechChange (<[p:=svc]> (Tran.servicePreTechChange t))
             (Tran.set_baseScalerNotLic
               (fittedScaler gdp p (Tran.perCapitaBased t) svc (d1 - lic) pE iE)
               (Tran.set_baseScaler
                 (fittedScaler gdp p (Tran.perCapitaBased t) svc lic pE iE)
                 (Tran.set_priceRatioNotLic d1 (Tran.set_priceRatio d1 t)))))).
Proof.
  intros Hp Hs Hl HpE HiE Hpre Hout. unfold Tran.aggdemand.
  rewrite decide_True by exact Hp.
  rewrite (calibrate_result gdp p t svc lic pE iE) by assumption. simpl.
  rewrite Hs; simpl. rewrite vec_write_in_range by assumption. reflexivity.
Qed.

End TranBase.

(** ** Signs under the operations of binary64 *)

(** A rounded result keeps the sign it was given, unless it is NaN. *)
Lemma binary_round_aux_sign (prec emax : Z) (sx : bool) (mx ex : Z) (lx : location) :
  match binary_round_aux prec emax sx mx ex lx with
  | S754_nan => True
  | S754_zero sg | S754_infinity sg | S754_finite sg _ _ => sg = sx
  end.
Proof.
  unfold binary_round_aux.
  destruct (shr_fexp prec emax mx ex lx) as [mrs e].
  destruct (shr_fexp prec emax _ e loc_Exact) as [mrs' e'].
  destruct (shr_m mrs'); [reflexivity | | exact I].
  destruct (Z.leb e' (emax - prec)); reflexivity.
Qed.

Ltac rounded :=
  match goal with
  | |- context [binary_round_aux ?prec ?emax ?sg ?m ?e ?l] =>
      let H := fresh in
      assert (H := binary_round_aux_sign prec emax sg m e l);
      destruct (binary_round_aux prec emax sg m e l); subst;
      simpl; try reflexivity; try discriminate
  end.

Ltac by_class x y :=
  destruct (Prim2SF x) as [[]|[]| |[] ? ?]; destruct (Prim2SF y) as [[]|[]| |[] ? ?];
  simpl; try reflexivity; try discriminate.

Lemma signNonneg_mul (x y : float) :
  signNonneg x = true -> signNonneg y = true -> signNonneg (x * y) = true.
Proof.
  unfold signNonneg. rewrite mul_spec. unfold SF64mul, SFmul.
  by_class x y. intros _ _. rounded.
Qed.

Lemma signNonneg_div (x y : float) :
  signNonneg x = true -> signNonneg y = true -> signNonneg (x / y) = true.
Proof.
  unfold signNonneg. rewrite div_spec. unfold SF64div, SFdiv.
  by_class x y. intros _ _.
  destruct (SFdiv_core_binary _ _ _ _ _ _) as [[mz ez] lz]. rounded.
Qed.

Lemma signNonneg_notNegative (x : float) : signNonneg x = true -> notNegative x = true.
Proof.
  unfold notNegative, signNonneg. destruct (Prim2SF x) as [[]|[]| |[] ? ?]; auto.
Qed.

Lemma notNegative_div (x y : float) :
  notNegative x = true -> signNonneg y = true -> notNegative (x / y) = true.
Proof.
  unfold notNegative, signNonneg. rewrite div_spec. unfold SF64div, SFdiv.
  by_class x y. intros _ _.
  destruct (SFdiv_core_binary _ _ _ _ _ _) as [[mz ez] lz]. rounded.
Qed.

Lemma notNegative_not_lt (x : float) : notNegative x = true -> PrimFloat.ltb x 0 = false.
Proof.
  unfold notNegative, signNonneg. rewrite ltb_spec.
  change (Prim2SF 0) with (S754_zero false). unfold SFltb, SFcompare.
  destruct (Prim2SF x) as [[]|[]| |[] ? ?]; simpl; try reflexivity; discriminate.
Qed.

Lemma ge_zero_notNegative (x : float) : PrimFloat.leb 0 x = true -> notNegative x = true.
Proof.
  unfold notNegative, signNonneg. rewrite leb_spec.
  change (Prim2SF 0) with (S754_zero false). unfold SFleb, SFcompare.
  destruct (Prim2SF x) as [[]|[]| |[] ? ?]; simpl; try reflexivity; discriminate.
Qed.





(** The projection of the simple strategy has no negative sign when its
    factors have none. *)
Lemma projection_signNonneg (perCapita : bool) (scaler a b agg cap : float) :
  signNonneg scaler = true ->
  signNonneg a = true ->
  signNonneg b = true ->
  (perCapita = true -> signNonneg agg = true ∧ signNonneg cap = true) ->
  signNonneg (if perCapita then scaler * a * b * (agg / cap) else scaler * a * b)%float
  = true.
Proof.
  intros Hs Ha Hb Hgdp.
  assert (Hab : signNonneg (scaler * a * b) = true)
    by (repeat apply signNonneg_mul; assumption).
  destruct perCapita; [| exact Hab].
  destruct (Hgdp eq_refl) as [Hagg Hcap].
  apply signNonneg_mul; [exact Hab |]. apply signNonneg_div; assumption.
Qed.

(** The scaler fitted by the simple strategy is not negative when the
    observed demand is not and the divisors have no negative sign. *)
Lemma fit_notNegative (perCapita : bool) (base a b agg cap : float) :
  notNegative base = true ->
  signNonneg a = true ->
  signNonneg b = true ->
  (perCapita = true -> signNonneg agg = true ∧ signNonneg cap = true) ->
  notNegative (if perCapita then base / a / (b * agg / cap) else base / a / b)%float
  = true.
Proof.
  intros Hbase Ha Hb Hgdp.
  assert (Hq : notNegative (base / a) = true) by (apply notNegative_div; assumption).
  destruct perCapita; [| apply notNegative_div; assumption].
  destruct (Hgdp eq_refl) as [Hagg Hcap].
  apply notNegative_div; [exact Hq |].
  apply signNonneg_div; [| exact Hcap]. apply signNonneg_mul; assumption.
Qed.

(** ** What a projection stores *)

Section ProjectionStores.
Context {D : Type} `{!DoubleOps D}.
Local Open Scope double_scope.

(** A projection period stores the projected demand in both vectors. *)
Lemma building_projection_stores (gdp : GDP D) (p : nat)
    (s : Building.BuildingDemandSector D) (base cur prev pE iE : D) :
  Building.baseService s !! p = Some base ->
  (base <? d0) = true ->
  (1 < p -> Building.sectorprice s !! p = Some cur
            ∧ Building.sectorprice s !! (p - 1)%nat = Some prev) ->
  Building.pElasticity s !! p = Some pE ->
  Building.iElasticity s !! p = Some iE ->
  p < length (Building.servicePreTechChange s) ->
  p < length (Building.service s) ->
  ∃ s', Building.aggdemand gdp p s = Some s'
    ∧ Building.service s' !! p =
        Some (projectedDemandSimple gdp p (Building.perCapitaBased s) (Building.baseScaler s)
                (if decide (1 < p) then cur / prev else d1) pE iE)
    ∧ Building.servicePreTechChange s' !! p =
        Some (projectedDemandSimple gdp p (Building.perCapitaBased s) (Building.baseScaler s)
                (if decide (1 < p) then cur / prev else d1) pE iE).
Proof.
  intros Hb Hlt Hprice HpE HiE Hpre Hsvc.
  assert (Hr : Building.priceRatioAt p s = Some (if decide (1 < p) then cur / prev else d1)).
  { case_decide as Hp.
    - destruct (Hprice Hp) as [Hc Hv]. eapply priceRatioAt_later; eassumption.
    - apply priceRatioAt_early. lia. }
  eexists. split.
  - eapply aggdemand_projection; try eassumption.
    apply dlt_not_ge. exact Hlt.
  - simpl. rewrite !list_lookup_insert_eq by assumption. auto.
Qed.


End ProjectionStores.



(** ** The fallback followed by a projection, on binary64 *)

(** C6 (as amended).  When [baseScaler] is negative, [initCalc] sets it
    to 1.0 and logs one WARNING naming the period, the sector and the
    region; the projection that follows stores
    [1.0 * priceRatio^pElasticity[p]] times the income term in
    [service[p]] and [servicePreTechChange[p]].  On binary64, whatever
    [pow] is: when the two powers and, in per-capita mode, the two GDP
    figures have no negative sign, the stored value has none either, and
    is not below zero.  It need not be finite. *)
Theorem C6_unset_scaler_falls_back_to_one (pw : float -> float -> float) (gdp : GDP float)
    (p : nat) (s : Building.BuildingDemandSector float) (mainLog : MainLog float)
    (base cur prev pE iE : float) :
  PrimFloat.ltb (Building.baseScaler s) 0 = true ->
  Building.baseService s !! p = Some base ->
  PrimFloat.ltb base 0 = true ->
  (1 < p -> Building.sectorprice s !! p = Some cur
            ∧ Building.sectorprice s !! (p - 1)%nat = Some prev) ->
  Building.pElasticity s !! p = Some pE ->
  Building.iElasticity s !! p = Some iE ->
  p < length (Building.servicePreTechChange s) ->
  p < length (Building.service s) ->
  let priceRatio := if decide (1 < p) then (cur / prev)%float else 1%float in
  let cap := getBestScaledGDPperCap gdp p in
  let agg := getApproxScaledGDP gdp p in
  let result :=
    if Building.perCapitaBased s then
      (1 * pw priceRatio pE * pw cap iE * (agg / cap))%float
    else (1 * pw priceRatio pE * pw agg iE)%float in
  ∃ s1 s2,
    Building.initCalc (DoubleOps0:=float_double pw) p s mainLog =
      (s1, (mainLog ++ [mkLogEntry WARNING
              [Text "WARNING: Building sector base demand service not set in period ";
               IntVal p; Text " sector "; Text (Building.name s);
               Text " region "; Text (Building.regionName s);
               Text ".  baseScaler being set to 1."]])%list)
    ∧ Building.baseScaler s1 = 1%float
    ∧ Building.aggdemand (DoubleOps0:=float_double pw) gdp p s1 = Some s2
    ∧ Building.service s2 !! p = Some result
    ∧ Building.servicePreTechChange s2 !! p = Some result
    ∧ (signNonneg (pw priceRatio pE) = true ->
       signNonneg (pw (if Building.perCapitaBased s then cap else agg) iE) = true ->
       (Building.perCapitaBased s = true ->
        signNonneg agg = true ∧ signNonneg cap = true) ->
       signNonneg result = true ∧ PrimFloat.ltb result 0 = false).
Proof.
  intros Hunset Hb Hneg Hprice HpE HiE Hpre Hsvc priceRatio cap agg result.
  destruct (building_projection_stores (DoubleOps0:=float_double pw) gdp p
              (Building.set_baseScaler 1%float s)
              base cur prev pE iE)
    as (s2 & Hrun & Hval & Hvalpre); try assumption.
  exists (Building.set_baseScaler 1%float s), s2.
  split; [exact (initCalc_unset (DoubleOps0:=float_double pw) p s mainLog Hunset) |].
  split; [reflexivity |]. split; [exact Hrun |].
  split; [exact Hval |]. split; [exact Hvalpre |].
  intros Hratio Hincome Hgdp.
  assert (Hsign : signNonneg result = true).
  { subst result. destruct (Building.perCapitaBased s).
    - apply (projection_signNonneg true); auto.
    - apply (projection_signNonneg false 1%float _ _ agg cap); auto. }
  split; [exact Hsign |].
  apply notNegative_not_lt, signNonneg_notNegative, Hsign.
Qed.

(** An unset building sector with elasticities -2 and 2, prices and GDP
    finite and positive.  With GDP near 1e200 the square of GDP is
    [+infinity]: [service[2]] is [+infinity] when the price stays at 1, and
    NaN (zero times infinity) when the price rises to that figure. *)
Lemma C6_counterexample :
  finite ScenarioBinary64.large = true
  ∧ PrimFloat.ltb 0 ScenarioBinary64.large = true
  ∧ PrimFloat.ltb (Building.baseScaler (ScenarioBinary64.building_unset [1; 1; 1; 1]%float)) 0
    = true
  ∧ (let '(s1, _) := Building.initCalc (DoubleOps0:=ieee) 2
                       (ScenarioBinary64.building_unset [1; 1; 1; 1]%float) [] in
     s2 ← Building.aggdemand (DoubleOps0:=ieee) ScenarioBinary64.gdp_large 2 s1;
     v ← Building.service s2 !! 2%nat;
     Some (Building.baseScaler s1, v, finite v)) = Some (1%float, infinity, false)
  ∧ (let '(s1, _) := Building.initCalc (DoubleOps0:=ieee) 2
                       (ScenarioBinary64.building_unset
                          [1; 1; ScenarioBinary64.large; 1]%float) [] in
     s2 ← Building.aggdemand (DoubleOps0:=ieee) ScenarioBinary64.gdp_large 2 s1;
     v ← Building.service s2 !! 2%nat;
     Some (Building.baseScaler s1, v, finite v, PrimFloat.leb 0 v))
    = Some (1%float, nan, false, false).
Proof.
  repeat split; vm_compute; reflexivity.
Qed.

Lemma C6_witness :
  ∃ s1 s2,
    Building.initCalc (DoubleOps0:=ieee) 2
      (ScenarioBinary64.building_unset [1; 1; 1.25; 1]%float) [] =
      (s1, [mkLogEntry WARNING
              [Text "WARNING: Building sector base demand service not set in period ";
               IntVal 2; Text " sector "; Text "building";
               Text " region "; Text "USA";
               Text ".  baseScaler being set to 1."]])
    ∧ Building.baseScaler s1 = 1%float
    ∧ Building.aggdemand (DoubleOps0:=ieee) ScenarioBinary64.gdp_steady 2 s1 = Some s2
    ∧ Building.service s2 !! 2%nat
      = Some (1 * pow_dyadic (1.25 / 1) (-2) * pow_dyadic 100 2)%float
    ∧ PrimFloat.ltb (1 * pow_dyadic (1.25 / 1) (-2) * pow_dyadic 100 2) 0 = false.
Proof.
  destruct (C6_unset_scaler_falls_back_to_one pow_dyadic ScenarioBinary64.gdp_steady 2
              (ScenarioBinary64.building_unset [1; 1; 1.25; 1]%float) []
              (-1)%float 1.25%float 1%float (-2)%float 2%float)
    as (s1 & s2 & Hinit & Hone & Hrun & Hval & _ & Hsign); try concrete.
  exists s1, s2.
  split; [exact Hinit |]. split; [exact Hone |]. split; [exact Hrun |].
  split; [exact Hval |].
  apply Hsign; try reflexivity. discriminate.
Defined.

(** ** The two strategies side by side *)

Section TwoStrategies.
Context {D : Type} `{!DoubleOps D}.
Local Open Scope double_scope.


End TwoStrategies.




(** * Further properties of the two sectors *)

(** ** What a period's computation leaves alone *)

Section OnePeriod.
Context {D : Type} `{!DoubleOps D}.
Local Open Scope double_scope.

(** [BuildingDemandSector::aggdemand] on a sized sector keeps every vector
    at its length, writes the same value into [service[p]] and
    [servicePreTechChange[p]], and leaves the entries of the other periods
    and the configuration as they were. *)
Theorem building_aggdemand_touches_one_period (n : nat) (gdp : GDP D) (p : nat)
    (s : Building.BuildingDemandSector D) :
  Building.sized n s ->
  p < n ->
  ∃ s', Building.aggdemand gdp p s = Some s'
    ∧ Building.sized n s'
    ∧ Building.service s' !! p = Building.servicePreTechChange s' !! p
    ∧ (∀ q, q ≠ p ->
         Building.service s' !! q = Building.service s !! q
         ∧ Building.servicePreTechChange s' !! q = Building.servicePreTechChange s !! q)
    ∧ Building.baseService s' = Building.baseService s
    ∧ Building.sectorprice s' = Building.sectorprice s
    ∧ Building.pElasticity s' = Building.pElasticity s
    ∧ Building.iElasticity s' = Building.iElasticity s
    ∧ Building.perCapitaBased s' = Building.perCapitaBased s
    ∧ Building.name s' = Building.name s
    ∧ Building.regionName s' = Building.regionName s.
Proof.
  intros Hsized Hp.
  destruct (building_priceRatioAt_sized n p s Hsized Hp) as [ratio Hr].
  destruct Hsized as (HpE & HiE & Hsp & Hpre & Hsvc & Hbase).
  destruct (lookup_lt_is_Some_2 (Building.pElasticity s) p) as [pE HpE']; [lia |].
  destruct (lookup_lt_is_Some_2 (Building.iElasticity s) p) as [iE HiE']; [lia |].
  destruct (lookup_lt_is_Some_2 (Building.baseService s) p) as [base Hb]; [lia |].
  destruct (base >=? d0) eqn:Hge.
  - eexists. split; [eapply aggdemand_calibration; try eassumption; lia |].
    unfold Building.sized; simpl. rewrite !length_insert.
    rewrite !list_lookup_insert_eq by lia.
    repeat split; try assumption; try reflexivity;
      apply list_lookup_insert_ne; congruence.
  - eexists. split; [eapply aggdemand_projection; try eassumption; lia |].
    unfold Building.sized; simpl. rewrite !length_insert.
    rewrite !list_lookup_insert_eq by lia.
    repeat split; try assumption; try reflexivity;
      apply list_lookup_insert_ne; congruence.
Qed.

(** [TranSector::aggdemand] on a sized sector keeps every vector at its
    length, copies [service[p]] into [output[p]], and leaves the entries
    of the other periods and the configuration as they were. *)
Theorem tran_aggdemand_touches_one_period (n : nat) (modeltime : Modeltime) (gdp : GDP D)
    (p : nat) (t : Tran.TranSector D) :
  Tran.sized n t ->
  p < n ->
  ∃ t', Tran.aggdemand modeltime gdp p t = Some t'
    ∧ Tran.sized n t'
    ∧ Tran.output t' !! p = Tran.service t' !! p
    ∧ (∀ q, q ≠ p ->
         Tran.service t' !! q = Tran.service t !! q
         ∧ Tran.servicePreTechChange t' !! q = Tran.servicePreTechChange t !! q
         ∧ Tran.output t' !! q = Tran.output t !! q)
    ∧ Tran.percentLicensed t' = Tran.percentLicensed t
    ∧ Tran.aeei t' = Tran.aeei t
    ∧ Tran.sectorprice t' = Tran.sectorprice t
    ∧ Tran.pElasticity t' = Tran.pElasticity t
    ∧ Tran.iElasticity t' = Tran.iElasticity t
    ∧ Tran.perCapitaBased t' = Tran.perCapitaBased t
    ∧ Tran.name t' = Tran.name t
    ∧ Tran.regionName t' = Tran.regionName t.
Proof.
  intros (HpE & HiE & Hae & Hsp & Hpre & Hsvc & Hout & Hlic) Hp.
  destruct (lookup_lt_is_Some_2 (Tran.pElasticity t) p) as [pE HpE']; [lia |].
  destruct (lookup_lt_is_Some_2 (Tran.iElasticity t) p) as [iE HiE']; [lia |].
  destruct (decide (p = 0 ∨ p = 1)) as [Hbase | Hlater].
  - destruct (lookup_lt_is_Some_2 (Tran.service t) p) as [svc Hs]; [lia |].
    destruct (lookup_lt_is_Some_2 (Tran.percentLicensed t) p) as [lic Hl]; [lia |].
    eexists. split; [eapply aggdemand_base; try eassumption; lia |].
    unfold Tran.sized; simpl. rewrite !length_insert.
    rewrite !list_lookup_insert_eq by lia.
    repeat split; try assumption; try reflexivity; try (symmetry; assumption);
      apply list_lookup_insert_ne; congruence.
  - destruct (lookup_lt_is_Some_2 (Tran.sectorprice t) p) as [cur Hc]; [lia |].
    destruct (lookup_lt_is_Some_2 (Tran.sectorprice t) (p - 1)) as [prev Hv]; [lia |].
    destruct (lookup_lt_is_Some_2 (Tran.aeei t) p) as [a Ha]; [lia |].
    eexists. split; [eapply aggdemand_later; try eassumption; lia |].
    unfold Tran.sized; simpl. rewrite !length_insert.
    rewrite !list_lookup_insert_eq by lia.
    repeat split; try assumption; try reflexivity;
      apply list_lookup_insert_ne; congruence.
Qed.

End OnePeriod.

Lemma building_aggdemand_touches_one_period_witness :
  ∃ s', Building.aggdemand (DoubleOps0:=ieee) Scenario.gdp 2 Scenario.building_fitted = Some s'
    ∧ Building.sized 4 s'
    ∧ Building.service s' !! 1%nat = Some 100%float.
Proof.
  destruct (building_aggdemand_touches_one_period (DoubleOps0:=ieee) 4 Scenario.gdp 2
              Scenario.building_fitted) as (s' & Hrun & Hsized & _ & Hother & _).
  - repeat split.
  - lia.
  - exists s'. split; [exact Hrun |]. split; [exact Hsized |].
    destruct (Hother 1%nat ltac:(lia)) as [-> _]. reflexivity.
Defined.

Lemma tran_aggdemand_touches_one_period_witness :
  ∃ t', Tran.aggdemand (DoubleOps0:=ieee) Scenario.modeltime Scenario.gdp 2
          (Scenario.tran_fitted [0; 0; 0; 0]%float [1; 1; 1; 1]%float) = Some t'
    ∧ Tran.sized 4 t'
    ∧ Tran.output t' !! 1%nat = Some 100%float.
Proof.
  destruct (tran_aggdemand_touches_one_period (DoubleOps0:=ieee) 4 Scenario.modeltime
              Scenario.gdp 2 (Scenario.tran_fitted [0; 0; 0; 0]%float [1; 1; 1; 1]%float))
    as (t' & Hrun & Hsized & _ & Hother & _).
  - repeat split.
  - lia.
  - exists t'. split; [exact Hrun |]. split; [exact Hsized |].
    destruct (Hother 1%nat ltac:(lia)) as (_ & _ & ->). reflexivity.
Defined.

(** ** Calibration and the fallback *)

(** [initCalc] warns once: run again, in any period, on what it returned,
    it changes neither the sector nor the log.  Exact arithmetic and
    binary64 (whatever [pow] is). *)
Theorem initCalc_warns_once :
  (∀ (p q : nat) (s : Building.BuildingDemandSector R) (mainLog : MainLog R),
     Building.initCalc q (Building.initCalc p s mainLog).1 (Building.initCalc p s mainLog).2
     = Building.initCalc p s mainLog)
  ∧ (∀ (pw : float -> float -> float) (p q : nat)
       (s : Building.BuildingDemandSector float) (mainLog : MainLog float),
     Building.initCalc (DoubleOps0:=float_double pw) q
       (Building.initCalc (DoubleOps0:=float_double pw) p s mainLog).1
       (Building.initCalc (DoubleOps0:=float_double pw) p s mainLog).2
     = Building.initCalc (DoubleOps0:=float_double pw) p s mainLog).
Proof.
  split.
  - intros p q s mainLog.
    destruct (dlt (Building.baseScaler s) (of_int 0)) eqn:Hlt.
    + rewrite (initCalc_unset p s mainLog Hlt). simpl.
      apply initCalc_set. simpl. unfold Rltb.
      destruct (Rlt_dec 1 0); [lra | reflexivity].
    + rewrite (initCalc_set p s mainLog Hlt). simpl.
      apply initCalc_set. exact Hlt.
  - intros pw p q s mainLog.
    destruct (dlt (DoubleOps:=float_double pw) (Building.baseScaler s)
                (of_int (DoubleOps:=float_double pw) 0)) eqn:Hlt.
    + rewrite (initCalc_unset (DoubleOps0:=float_double pw) p s mainLog Hlt). simpl.
      apply (initCalc_set (DoubleOps0:=float_double pw)). reflexivity.
    + rewrite (initCalc_set (DoubleOps0:=float_double pw) p s mainLog Hlt). simpl.
      apply (initCalc_set (DoubleOps0:=float_double pw)). exact Hlt.
Qed.

Section CalibrationForgets.
Context {D : Type} `{!DoubleOps D}.
Local Open Scope double_scope.

(** A calibration period of the simple strategy does not read the scaler
    it replaces: the result is the same whatever [baseScaler] held, so the
    fallback of [initCalc] leaves no trace once a period is observed. *)
Theorem building_calibration_forgets_scaler (gdp : GDP D) (p : nat)
    (s : Building.BuildingDemandSector D) (mainLog : MainLog D) (base x : D) :
  Building.baseService s !! p = Some base ->
  (base >=? d0) = true ->
  Building.aggdemand gdp p (Building.set_baseScaler x s) = Building.aggdemand gdp p s
  ∧ Building.aggdemand gdp p (Building.initCalc p s mainLog).1 = Building.aggdemand gdp p s.
Proof.
  intros Hb Hge.
  assert (Hany : ∀ y, Building.aggdemand gdp p (Building.set_baseScaler y s)
                      = Building.aggdemand gdp p s).
  { intros y. unfold Building.aggdemand, Building.priceRatioAt.
    destruct s as [nm r pc pe ie sp pre svc bs bsv]; simpl in *.
    rewrite Hb.
    destruct (decide (1 < p)); destruct (sp !! p); destruct (sp !! (p - 1)%nat);
      simpl; try reflexivity;
      destruct (pe !! p); simpl; try reflexivity;
      destruct (ie !! p); simpl; try reflexivity;
      rewrite Hge; destruct pc; reflexivity. }
  split; [apply Hany |].
  unfold Building.initCalc. destruct (Building.baseScaler s <? d0); simpl;
    [apply Hany | reflexivity].
Qed.

(** A base period of the segmented strategy does not read what it
    replaces: the result is the same whatever the two scalers and the two
    price ratios held, so the fit of period 1 stands alone after the fit
    of period 0. *)
Theorem tran_base_period_forgets_fit (modeltime : Modeltime) (gdp : GDP D) (p : nat)
    (t : Tran.TranSector D) (x y r rn : D) :
  p = 0 ∨ p = 1 ->
  Tran.aggdemand modeltime gdp p
    (Tran.set_priceRatio r (Tran.set_priceRatioNotLic rn
       (Tran.set_baseScaler x (Tran.set_baseScalerNotLic y t))))
  = Tran.aggdemand modeltime gdp p t.
Proof.
  intros Hp. unfold Tran.aggdemand. rewrite !decide_True by exact Hp.
  unfold Tran.calibrate.
  destruct t as [nm rg pc pe ie ae sp pre svc out pr prn bs bsn pl]; simpl.
  destruct pc; reflexivity.
Qed.

End CalibrationForgets.

Lemma building_calibration_forgets_scaler_witness :
  Building.aggdemand (DoubleOps0:=ieee) Scenario.gdp 1
    (Building.set_baseScaler 7%float Scenario.building)
  = Building.aggdemand (DoubleOps0:=ieee) Scenario.gdp 1 Scenario.building
  ∧ Building.aggdemand (DoubleOps0:=ieee) Scenario.gdp 1
      (Building.initCalc (DoubleOps0:=ieee) 1 Scenario.building []).1
    = Building.aggdemand (DoubleOps0:=ieee) Scenario.gdp 1 Scenario.building.
Proof.
  apply (building_calibration_forgets_scaler (DoubleOps0:=ieee) Scenario.gdp 1
           Scenario.building [] 100%float 7%float); concrete.
Defined.

Lemma tran_base_period_forgets_fit_witness :
  Tran.aggdemand (DoubleOps0:=ieee) Scenario.modeltime Scenario.gdp 1
    (Tran.set_priceRatio 2%float (Tran.set_priceRatioNotLic 3%float
       (Tran.set_baseScaler 5%float (Tran.set_baseScalerNotLic 6%float
          (Scenario.tran true [0; 0; 0; 0]%float [1; 1; 1; 1]%float)))))
  = Tran.aggdemand (DoubleOps0:=ieee) Scenario.modeltime Scenario.gdp 1
      (Scenario.tran true [0; 0; 0; 0]%float [1; 1; 1; 1]%float).
Proof.
  apply (tran_base_period_forgets_fit (DoubleOps0:=ieee) Scenario.modeltime Scenario.gdp 1
           (Scenario.tran true [0; 0; 0; 0]%float [1; 1; 1; 1]%float)
           5%float 6%float 2%float 3%float).
  concrete.
Defined.

(** ** Reconciliation with the calibrated output *)

Section Reconciliation.
Context {D : Type} `{!DoubleOps D}.
Local Open Scope double_scope.

(** [checkSectorCalData] run a second time, with every input fixed, leaves
    the sector as the first run made it; the second log entry carries the
    factor [calibrated output / calibrated output]. *)
Theorem checkSectorCalData_twice (cal : CalData D) (p : nat) (t : Tran.TranSector D)
    (mainLog : MainLog D) (old : D) :
  inputsAllFixed cal p = true ->
  Tran.service t !! p = Some old ->
  ∃ t1 mainLog1,
    Tran.checkSectorCalData cal p t mainLog = Some (t1, mainLog1)
    ∧ Tran.checkSectorCalData cal p t1 mainLog1 =
        Some (t1, (mainLog1 ++ [mkLogEntry DEBUG
                     [Text "Calibrated Demand Scaled by ";
                      DoubleVal (getCalOutput cal p / getCalOutput cal p);
                      Text " in region "; Text (Tran.regionName t);
                      Text " sector "; Text (Tran.name t)]])%list).
Proof.
  intros Hfixed Hold.
  assert (Hlt : p < length (Tran.service t)) by (eapply lookup_lt_Some; eassumption).
  unfold Tran.checkSectorCalData. rewrite Hfixed, Hold; simpl.
  rewrite vec_write_in_range by assumption; simpl.
  eexists _, _. split; [reflexivity |].
  simpl. rewrite list_lookup_insert_eq by assumption; simpl.
  rewrite vec_write_in_range by (rewrite length_insert; assumption); simpl.
  rewrite list_insert_insert_eq.
  destruct t; reflexivity.
Qed.

(** The order of reconciliation and base-period calibration matters.
    Reconciled first, the sector is fitted to the calibrated output, which
    also becomes [servicePreTechChange[p]] and [output[p]].  Reconciled
    afterwards, [service[p]] is the calibrated output while the scalers,
    [servicePreTechChange[p]] and [output[p]] keep the demand read in. *)
Theorem reconcile_before_or_after_calibration (modeltime : Modeltime) (gdp : GDP D)
    (cal : CalData D) (p : nat) (t : Tran.TranSector D) (mainLog : MainLog D)
    (svc lic pE iE : D) :
  p = 0 ∨ p = 1 ->
  inputsAllFixed cal p = true ->
  Tran.service t !! p = Some svc ->
  Tran.percentLicensed t !! p = Some lic ->
  Tran.pElasticity t !! p = Some pE ->
  Tran.iElasticity t !! p = Some iE ->
  p < length (Tran.servicePreTechChange t) ->
  p < length (Tran.output t) ->
  (∃ t1 mainLog1 t2,
     Tran.checkSectorCalData cal p t mainLog = Some (t1, mainLog1)
     ∧ Tran.aggdemand modeltime gdp p t1 = Some t2
     ∧ Tran.baseScaler t2
       = fittedScaler gdp p (Tran.perCapitaBased t) (getCalOutput cal p) lic pE iE
     ∧ Tran.baseScalerNotLic t2
       = fittedScaler gdp p (Tran.perCapitaBased t) (getCalOutput cal p) (d1 - lic) pE iE
     ∧ Tran.service t2 !! p = Some (getCalOutput cal p)
     ∧ Tran.servicePreTechChange t2 !! p = Some (getCalOutput cal p)
     ∧ Tran.output t2 !! p = Some (getCalOutput cal p))
  ∧ (∃ t1 t2 mainLog2,
       Tran.aggdemand modeltime gdp p t = Some t1
       ∧ Tran.checkSectorCalData cal p t1 mainLog = Some (t2, mainLog2)
       ∧ Tran.baseScaler t2 = fittedScaler gdp p (Tran.perCapitaBased t) svc lic pE iE
       ∧ Tran.baseScalerNotLic t2
         = fittedScaler gdp p (Tran.perCapitaBased t) svc (d1 - lic) pE iE
       ∧ Tran.service t2 !! p = Some (getCalOutput cal p)
       ∧ Tran.servicePreTechChange t2 !! p = Some svc
       ∧ Tran.output t2 !! p = Some svc).
Proof.
  intros Hp Hfixed Hs Hl HpE HiE Hpre Hout.
  assert (Hsvc : p < length (Tran.service t)) by (eapply lookup_lt_Some; eassumption).
  split.
  - unfold Tran.checkSectorCalData. rewrite Hfixed, Hs; simpl.
    rewrite vec_write_in_range by assumption; simpl.
    eexists _, _, _. split; [reflexivity |]. split.
    + apply (aggdemand_base modeltime gdp p _ (getCalOutput cal p) lic pE iE);
        try assumption.
      simpl. apply list_lookup_insert_eq. assumption.
    + simpl. rewrite !list_lookup_insert_eq by assumption. repeat split.
  - eexists _, _, _. split.
    { apply (aggdemand_base modeltime gdp p t svc lic pE iE); assumption. }
    split.
    { unfold Tran.checkSectorCalData. rewrite Hfixed; simpl. rewrite Hs; simpl.
      rewrite vec_write_in_range by assumption. reflexivity. }
    simpl. rewrite !list_lookup_insert_eq by assumption. repeat split.
Qed.

End Reconciliation.

Lemma checkSectorCalData_twice_witness :
  ∃ t1 mainLog1,
    Tran.checkSectorCalData (DoubleOps0:=ieee) Scenario.cal 1
      (Scenario.tran false [0; 0; 0; 0]%float [1; 1; 1; 1]%float) [] = Some (t1, mainLog1)
    ∧ Tran.checkSectorCalData (DoubleOps0:=ieee) Scenario.cal 1 t1 mainLog1 =
        Some (t1, (mainLog1 ++ [mkLogEntry DEBUG
                     [Text "Calibrated Demand Scaled by ";
                      DoubleVal (125 / 125)%float;
                      Text " in region "; Text "USA";
                      Text " sector "; Text "transportation"]])%list).
Proof.
  apply (checkSectorCalData_twice (DoubleOps0:=ieee) Scenario.cal 1
           (Scenario.tran false [0; 0; 0; 0]%float [1; 1; 1; 1]%float) [] 100%float);
    concrete.
Defined.

Lemma reconcile_before_or_after_calibration_witness :
  ∃ t1 t2 mainLog2,
    Tran.aggdemand (DoubleOps0:=ieee) Scenario.modeltime Scenario.gdp 1
      (Scenario.tran false [0; 0; 0; 0]%float [1; 1; 1; 1]%float) = Some t1
    ∧ Tran.checkSectorCalData (DoubleOps0:=ieee) Scenario.cal 1 t1 [] = Some (t2, mainLog2)
    ∧ Tran.service t2 !! 1%nat = Some 125%float
    ∧ Tran.output t2 !! 1%nat = Some 100%float.
Proof.
  destruct (reconcile_before_or_after_calibration (DoubleOps0:=ieee) Scenario.modeltime
              Scenario.gdp Scenario.cal 1
              (Scenario.tran false [0; 0; 0; 0]%float [1; 1; 1; 1]%float) []
              100%float 0.5%float (-0.5)%float 0.5%float)
    as (_ & t1 & t2 & mainLog2 & Hrun & Hcheck & _ & _ & Hsvc & _ & Hout);
    try concrete.
  exists t1, t2, mainLog2. auto.
Defined.

(** ** NaN on binary64 *)

(** An observed demand that is NaN is no observation: the period is
    projected from the scaler in place, which is kept (whatever [pow]
    is). *)
Theorem nan_observation_is_projected (pw : float -> float -> float) (gdp : GDP float)
    (p : nat) (s : Building.BuildingDemandSector float) (ratio pE iE : float) :
  Building.baseService s !! p = Some PrimFloat.nan ->
  Building.priceRatioAt (DoubleOps0:=float_double pw) p s = Some ratio ->
  Building.pElasticity s !! p = Some pE ->
  Building.iElasticity s !! p = Some iE ->
  p < length (Building.servicePreTechChange s) ->
  p < length (Building.service s) ->
  ∃ s', Building.aggdemand (DoubleOps0:=float_double pw) gdp p s = Some s'
    ∧ Building.baseScaler s' = Building.baseScaler s
    ∧ Building.service s' !! p =
        Some (if Building.perCapitaBased s then
                (Building.baseScaler s * pw ratio pE * pw (getBestScaledGDPperCap gdp p) iE
                 * (getApproxScaledGDP gdp p / getBestScaledGDPperCap gdp p))%float
              else
                (Building.baseScaler s * pw ratio pE
                 * pw (getApproxScaledGDP gdp p) iE)%float).
Proof.
  intros Hb Hr HpE HiE Hpre Hsvc.
  destruct (building_projection_frame (DoubleOps0:=float_double pw) gdp p s
              PrimFloat.nan ratio pE iE)
    as (s' & Hrun & Hbs & _ & _ & _ & _ & _ & _ & _ & Hval); try assumption.
  { reflexivity. }
  exists s'. split; [exact Hrun |]. split; [exact Hbs |]. exact Hval.
Qed.

(** A scaler that is NaN is not taken for unset: [initCalc] keeps it and
    logs nothing (whatever [pow] is). *)
Theorem nan_scaler_escapes_fallback (pw : float -> float -> float) (p : nat)
    (s : Building.BuildingDemandSector float) (mainLog : MainLog float) :
  Building.baseScaler s = PrimFloat.nan ->
  Building.initCalc (DoubleOps0:=float_double pw) p s mainLog = (s, mainLog).
Proof.
  intros Hnan. apply (initCalc_set (DoubleOps0:=float_double pw)).
  rewrite Hnan. reflexivity.
Qed.

Lemma nan_observation_is_projected_witness :
  ∃ s', Building.aggdemand (DoubleOps0:=ieee) Scenario.gdp 1 ScenarioNaN.observed = Some s'
    ∧ Building.baseScaler s' = 10%float
    ∧ Building.service s' !! 1%nat = Some (10 * pow_dyadic 1 (-0.5) * pow_dyadic 100 0.5)%float.
Proof.
  apply (nan_observation_is_projected pow_dyadic Scenario.gdp 1 ScenarioNaN.observed
           1%float (-0.5)%float 0.5%float); concrete.
Defined.

Lemma nan_scaler_escapes_fallback_witness :
  Building.initCalc (DoubleOps0:=ieee) 2 ScenarioNaN.scaler [] = (ScenarioNaN.scaler, []).
Proof.
  apply (nan_scaler_escapes_fallback pow_dyadic 2 ScenarioNaN.scaler []). concrete.
Defined.

(** ** Signs of the fit and of the projection *)

(** A calibration period whose observed demand is not negative fits a
    scaler that is not negative, when the two powers and, in per-capita
    mode, the two GDP figures have no negative sign: [initCalc] then finds
    the sector set, keeps the scaler and logs nothing (whatever [pow]
    is). *)
Theorem calibrated_sector_is_not_unset (pw : float -> float -> float) (gdp : GDP float)
    (p q : nat) (s : Building.BuildingDemandSector float) (mainLog : MainLog float)
    (base cur prev pE iE : float) :
  Building.baseService s !! p = Some base ->
  PrimFloat.leb 0 base = true ->
  (1 < p -> Building.sectorprice s !! p = Some cur
            ∧ Building.sectorprice s !! (p - 1)%nat = Some prev) ->
  Building.pElasticity s !! p = Some pE ->
  Building.iElasticity s !! p = Some iE ->
  p < length (Building.servicePreTechChange s) ->
  p < length (Building.service s) ->
  let priceRatio := if decide (1 < p) then (cur / prev)%float else 1%float in
  let cap := getBestScaledGDPperCap gdp p in
  let agg := getApproxScaledGDP gdp p in
  signNonneg (pw priceRatio pE) = true ->
  signNonneg (pw (if Building.perCapitaBased s then cap else agg) iE) = true ->
  (Building.perCapitaBased s = true -> signNonneg agg = true ∧ signNonneg cap = true) ->
  ∃ s', Building.aggdemand (DoubleOps0:=float_double pw) gdp p s = Some s'
    ∧ PrimFloat.ltb (Building.baseScaler s') 0 = false
    ∧ Building.initCalc (DoubleOps0:=float_double pw) q s' mainLog = (s', mainLog).
Proof.
  intros Hb Hge Hprice HpE HiE Hpre Hsvc priceRatio cap agg Hratio Hincome Hgdp.
  assert (Hr : Building.priceRatioAt (DoubleOps0:=float_double pw) p s = Some priceRatio).
  { subst priceRatio. case_decide as Hp.
    - destruct (Hprice Hp) as [Hc Hv].
      exact (priceRatioAt_later (DoubleOps0:=float_double pw) s p cur prev Hp Hc Hv).
    - apply (priceRatioAt_early (DoubleOps0:=float_double pw)). lia. }
  pose proof (aggdemand_calibration (DoubleOps0:=float_double pw) gdp p s base priceRatio
                pE iE Hr Hb HpE HiE Hge Hpre Hsvc) as Hrun.
  match type of Hrun with _ = Some ?x => set (s' := x) in * end.
  assert (Hscaler : PrimFloat.ltb (Building.baseScaler s') 0 = false).
  { apply notNegative_not_lt. subst s'; simpl.
    assert (Hbase := ge_zero_notNegative base Hge).
    destruct (Building.perCapitaBased s).
    - apply (fit_notNegative true); auto.
    - apply (fit_notNegative false base _ _ agg cap); auto. }
  exists s'. split; [exact Hrun |]. split; [exact Hscaler |].
  apply (initCalc_set (DoubleOps0:=float_double pw)). exact Hscaler.
Qed.

(** A projection from a scaler without a negative sign stores a demand
    without a negative sign, which is not below zero, when the two powers
    and, in per-capita mode, the two GDP figures have none (whatever [pow]
    is). *)
Theorem building_projection_is_not_negative (pw : float -> float -> float)
    (gdp : GDP float) (p : nat) (s : Building.BuildingDemandSector float)
    (base cur prev pE iE : float) :
  signNonneg (Building.baseScaler s) = true ->
  Building.baseService s !! p = Some base ->
  PrimFloat.ltb base 0 = true ->
  (1 < p -> Building.sectorprice s !! p = Some cur
            ∧ Building.sectorprice s !! (p - 1)%nat = Some prev) ->
  Building.pElasticity s !! p = Some pE ->
  Building.iElasticity s !! p = Some iE ->
  p < length (Building.servicePreTechChange s) ->
  p < length (Building.service s) ->
  let priceRatio := if decide (1 < p) then (cur / prev)%float else 1%float in
  let cap := getBestScaledGDPperCap gdp p in
  let agg := getApproxScaledGDP gdp p in
  signNonneg (pw priceRatio pE) = true ->
  signNonneg (pw (if Building.perCapitaBased s then cap else agg) iE) = true ->
  (Building.perCapitaBased s = true -> signNonneg agg = true ∧ signNonneg cap = true) ->
  ∃ s' v, Building.aggdemand (DoubleOps0:=float_double pw) gdp p s = Some s'
    ∧ Building.service s' !! p = Some v
    ∧ Building.servicePreTechChange s' !! p = Some v
    ∧ signNonneg v = true
    ∧ PrimFloat.ltb v 0 = false.
Proof.
  intros Hscaler Hb Hneg Hprice HpE HiE Hpre Hsvc priceRatio cap agg Hratio Hincome Hgdp.
  destruct (building_projection_stores (DoubleOps0:=float_double pw) gdp p s
              base cur prev pE iE)
    as (s' & Hrun & Hval & Hvalpre); try assumption.
  eexists s', _. split; [exact Hrun |]. split; [exact Hval |]. split; [exact Hvalpre |].
  assert (Hsign : signNonneg
                    (projectedDemandSimple (DoubleOps0:=float_double pw) gdp p
                       (Building.perCapitaBased s) (Building.baseScaler s)
                       priceRatio pE iE) = true).
  { unfold projectedDemandSimple. destruct (Building.perCapitaBased s).
    - apply (projection_signNonneg true); auto.
    - apply (projection_signNonneg false _ _ _ agg cap); auto. }
  split; [exact Hsign |].
  apply notNegative_not_lt, signNonneg_notNegative, Hsign.
Qed.

Lemma calibrated_sector_is_not_unset_witness :
  ∃ s', Building.aggdemand (DoubleOps0:=ieee) Scenario.gdp 3
          ScenarioBinary64.building_observed_late = Some s'
    ∧ PrimFloat.ltb (Building.baseScaler s') 0 = false
    ∧ Building.initCalc (DoubleOps0:=ieee) 3 s' [] = (s', []).
Proof.
  apply (calibrated_sector_is_not_unset pow_dyadic Scenario.gdp 3 3
           ScenarioBinary64.building_observed_late []
           50%float 1.25%float 1%float (-0.5)%float 0.5%float);
    concrete.
Defined.

Lemma building_projection_is_not_negative_witness :
  ∃ s' v, Building.aggdemand (DoubleOps0:=ieee) Scenario.gdp 3 Scenario.building_fitted
          = Some s'
    ∧ Building.service s' !! 3%nat = Some v
    ∧ Building.servicePreTechChange s' !! 3%nat = Some v
    ∧ signNonneg v = true
    ∧ PrimFloat.ltb v 0 = false.
Proof.
  apply (building_projection_is_not_negative pow_dyadic Scenario.gdp 3
           Scenario.building_fitted (-1)%float 1.25%float 1%float (-0.5)%float 0.5%float);
    first [concrete | discriminate].
Defined.

(** ** Prices in the first two periods *)

Section EarlyPrices.
Context {D : Type} `{!DoubleOps D}.
Local Open Scope double_scope.

(** In periods 0 and 1 [BuildingDemandSector::aggdemand] does not read
    [sectorprice]: with any other price vector, even an empty one, it
    computes the same sector, prices apart. *)
Theorem building_early_periods_ignore_prices (gdp : GDP D) (p : nat)
    (s : Building.BuildingDemandSector D) (prices : list D) :
  p <= 1 ->
  Building.aggdemand gdp p (withSectorprice prices s)
  = withSectorprice prices <$> Building.aggdemand gdp p s.
Proof.
  intros Hp. unfold Building.aggdemand.
  rewrite !priceRatioAt_early by exact Hp.
  destruct s as [nm r pc pe ie sp pre svc bs bsv]; simpl.
  destruct (bsv !! p) as [base|]; simpl; [| reflexivity].
  destruct (pe !! p) as [pE|]; simpl; [| reflexivity].
  destruct (ie !! p) as [iE|]; simpl; [| reflexivity].
  destruct (base >=? d0); destruct pc; simpl;
    destruct (vec_write pre p _); simpl; try reflexivity;
    destruct (vec_write svc p _); reflexivity.
Qed.

End EarlyPrices.

Lemma building_early_periods_ignore_prices_witness :
  Building.aggdemand (DoubleOps0:=ieee) Scenario.gdp 1 (withSectorprice [] Scenario.building)
  = withSectorprice [] <$> Building.aggdemand (DoubleOps0:=ieee) Scenario.gdp 1 Scenario.building.
Proof.
  apply (building_early_periods_ignore_prices (DoubleOps0:=ieee) Scenario.gdp 1
           Scenario.building []). concrete.
Defined.
